(** * Firefox add-on installation: [firefox/extension.js]

    A shallow embedding of [javascript/node/selenium-webdriver/firefox/extension.js]
    and the properties of its manifest parsers, source locator and installer.

    Conventions of the embedding.
    - A JavaScript string is a [string], one character per UTF-16 code unit;
      code units above 255 are outside the model.
    - A JavaScript value is a [jsval].  The property list of [JObj] holds the
      object's own enumerable properties in the order [Object.keys] yields
      them; a key that occurs again later in the list is shadowed.
    - Property access reads the own enumerable properties.  Every key the
      source forms is one of [$], [0], [RDF], [Description], [id], [name],
      [version], [unpack], [applications], [gecko], a key taken from
      [Object.keys], or such a name behind a prefix that ends in a colon: none
      of them is [length], and none names a property that objects, arrays or
      strings inherit.
    - A promise chain is a computation over the state [W] of the outside world
      that settles as [Resolved] or [Rejected]; a [throw] inside a [then]
      callback is a rejection.  One call of [install] is followed from start
      to end; other tasks of the event loop are not interleaved. *)

From Stdlib Require Import Ascii String Floats.
From stdpp Require Import base option list strings pretty gmap fin_maps.

Set Warnings "-register-all".
Set Default Proof Using "Type".
Local Open Scope string_scope.

(** ** JavaScript values *)

Module JS.

Inductive jsval : Type :=
| JUndefined
| JNull
| JBool (b : bool)
| JNum (x : float)
| JStr (s : string)
| JArr (items : list jsval)
| JObj (props : list (string * jsval)).

(** The errors a promise of this file is rejected with, by the place that
    raises them. *)
Inductive js_error : Type :=
| AddonFormatError (msg : string)   (* [new AddonFormatError(msg)] *)
| Error (msg : string)              (* [Error(msg)], thrown by getDetails *)
| TypeError                         (* raised by the engine *)
| XmlError (err : string)           (* the [err] xml2js hands to its callback *)
| SyntaxError (err : string)        (* thrown by [JSON.parse] *)
| IoError (err : string).           (* a rejection of an io or zip promise *)

Inductive outcome (A : Type) : Type :=
| Resolved (a : A)
| Rejected (e : js_error).
Global Arguments Resolved {A} a.
Global Arguments Rejected {A} e.

Global Instance outcome_ret : MRet outcome := @Resolved.
Global Instance outcome_bind : MBind outcome := λ A B f o,
  match o with
  | Resolved a => f a
  | Rejected e => Rejected e
  end.

(** ToBoolean. *)
Definition truthy (v : jsval) : bool :=
  match v with
  | JUndefined | JNull => false
  | JBool b => b
  | JNum x => negb (PrimFloat.is_zero x || PrimFloat.is_nan x)
  | JStr s => negb (String.eqb s "")
  | JArr _ | JObj _ => true
  end.

(** [v === s] for a string [s]. *)
Definition strict_eq_str (v : jsval) (s : string) : bool :=
  match v with JStr t => String.eqb t s | _ => false end.

(** First binding of a key in a property list. *)
Fixpoint assoc {A : Type} (k : string) (l : list (string * A)) : option A :=
  match l with
  | [] => None
  | (k', v) :: r => if String.eqb k' k then Some v else assoc k r
  end.

(** The keys of a property list, each once, in order of first occurrence. *)
Fixpoint keys_of {A : Type} (l : list (string * A)) : list string :=
  match l with
  | [] => []
  | (k, _) :: r => k :: filter (λ k', k' ≠ k) (keys_of r)
  end.

(** Canonical array indices as property keys: ["0"], ["1"], ... *)
Definition digit_of (c : ascii) : option nat :=
  let n := nat_of_ascii c in
  if (48 <=? n)%nat && (n <=? 57)%nat then Some (n - 48)%nat else None.

Fixpoint digits_value (acc : nat) (s : string) : option nat :=
  match s with
  | EmptyString => Some acc
  | String c r =>
      match digit_of c with
      | Some d => digits_value (10 * acc + d) r
      | None => None
      end
  end.

Definition index_of_key (k : string) : option nat :=
  match k with
  | EmptyString => None
  | String "0" EmptyString => Some 0%nat
  | String "0" _ => None
  | _ => digits_value 0 k
  end.

Definition key_of_index (n : nat) : string := pretty n.

(** The own property [k] of a value, if it has one. *)
Definition lookup_own (v : jsval) (k : string) : option jsval :=
  match v with
  | JObj props => assoc k props
  | JArr items => i ← index_of_key k; items !! i
  | JStr s => i ← index_of_key k; c ← String.get i s; Some (JStr (String c ""))
  | _ => None
  end.

(** [v[k]]: a TypeError on [undefined] and [null], [undefined] for a property
    the value does not have. *)
Definition get (v : jsval) (k : string) : outcome jsval :=
  match v with
  | JUndefined | JNull => Rejected TypeError
  | _ => Resolved (default JUndefined (lookup_own v k))
  end.

(** [Object.keys(v)] *)
Definition Object_keys (v : jsval) : outcome (list string) :=
  match v with
  | JUndefined | JNull => Rejected TypeError
  | JObj props => Resolved (keys_of props)
  | JArr items => Resolved (key_of_index <$> seq 0 (length items))
  | JStr s => Resolved (key_of_index <$> seq 0 (String.length s))
  | JBool _ | JNum _ => Resolved []
  end.

(** *** Strings *)

(** [s.slice(-n)] *)
Definition slice_last (n : nat) (s : string) : string :=
  substring (String.length s - n) n s.

(** [s.indexOf(c) != -1] for a one-character [c]. *)
Fixpoint contains_char (c : ascii) (s : string) : bool :=
  match s with
  | EmptyString => false
  | String a r => Ascii.eqb a c || contains_char c r
  end.

Global Arguments contains_char c%_char s%_string.

(** [s.split(c)] for a one-character separator. *)
Fixpoint js_split (c : ascii) (s : string) : list string :=
  match s with
  | EmptyString => [""]
  | String a r =>
      if Ascii.eqb a c then "" :: js_split c r
      else match js_split c r with
           | h :: t => String a h :: t
           | [] => [String a ""]
           end
  end.

Global Arguments js_split c%_char s%_string.

(** [String.prototype.toLowerCase] on the code units of the model: the letters
    A-Z and the capital letters of Latin-1 move up by 32. *)
Definition lower_char (c : ascii) : ascii :=
  let n := nat_of_ascii c in
  if ((65 <=? n) && (n <=? 90) || (192 <=? n) && (n <=? 222) && negb (n =? 215))%nat
  then ascii_of_nat (n + 32) else c.

Fixpoint toLowerCase (s : string) : string :=
  match s with
  | EmptyString => EmptyString
  | String c r => String (lower_char c) (toLowerCase r)
  end.

End JS.
Export JS.

(** ** Promises *)

(** A promise of this file: run against the outside world, it settles and
    leaves the world in a new state. *)
Definition Promise (W A : Type) : Type := W → outcome A * W.

Definition resolve {W A} (a : A) : Promise W A := λ w, (Resolved a, w).
Definition reject {W A} (e : js_error) : Promise W A := λ w, (Rejected e, w).

(** [p.then(f)]: a rejection of [p] skips [f]. *)
Definition then_ {W A B} (f : A → Promise W B) (p : Promise W A) : Promise W B :=
  λ w, match p w with
       | (Resolved a, w') => f a w'
       | (Rejected e, w') => (Rejected e, w')
       end.

Global Instance Promise_ret {W} : MRet (Promise W) := @resolve W.
Global Instance Promise_bind {W} : MBind (Promise W) := @then_ W.

(** The synchronous body of a callback: its value resolves the promise, what
    it throws rejects it. *)
Definition settle {W A} (o : outcome A) : Promise W A := λ w, (o, w).

(** A promise of a collaborator; [inl] is its rejection. *)
Definition Async (W A : Type) : Type := W → (string + A) * W.

Definition await {W A} (p : Async W A) : Promise W A :=
  λ w, match p w with
       | (inr a, w') => (Resolved a, w')
       | (inl e, w') => (Rejected (IoError e), w')
       end.

(** ** The collaborators

    What [extension.js] requires and does not define: Node's [path], [xml2js],
    [JSON], [Buffer], and the repository's [../io] and [../io/zip].  The
    functions below are parameters of the development. *)

Record Stats := { isDirectory : bool }.

Class Collaborators (W : Type) := {
  (* path *)
  path_join : string → string → string;
  (* xml2js: [parseString(text, callback)] calls back with [err] or [data] *)
  xml_parseString : string → string + jsval;
  (* JSON.parse: throws a SyntaxError or returns the value *)
  JSON_parse : string → string + jsval;
  (* Buffer and [buf.toString('utf8')] *)
  Buffer : Type;
  Buffer_toString : Buffer → string;
  (* ../io *)
  io_stat : string → Async W Stats;
  io_exists : string → Async W bool;
  io_read : string → Async W Buffer;
  io_copy : string → string → Async W unit;
  io_copyDir : string → string → Async W unit;
  (* ../io/zip *)
  Archive : Type;
  zip_load : string → Async W Archive;
  zip_unzip : string → string → Async W unit;
  archive_has : Archive → string → bool;
  archive_getFile : Archive → string → Async W Buffer;
}.

(** ** extension.js *)

(** [@typedef {{id: string, name: string, version: string, unpack: boolean}}]:
    the fields hold whatever the parsers put there. *)
Record AddonDetails := {
  id : jsval;
  name : jsval;
  version : jsval;
  unpack : jsval;
}.

Definition EM_NS : string := "http://www.mozilla.org/2004/em-rdf#".
Definition RDF_NS : string := "http://www.w3.org/1999/02/22-rdf-syntax-ns#".

(** [node[name] && node[name][0] || ''] *)
Definition getNodeText (node : jsval) (name : string) : outcome jsval :=
  v ← get node name;
  r ← (if truthy v then get v "0" else Resolved v);
  Resolved (if truthy r then r else JStr "").

(** The callback of [Object.keys(namespaces).some(...)] run over the keys, and
    the [id] it leaves behind. *)
Fixpoint getNamespaceId_some (namespaces : jsval) (url : string)
    (nss : list string) : outcome string :=
  match nss with
  | [] => Resolved ""
  | ns :: rest =>
      v ← get namespaces ns;
      if negb (strict_eq_str v url) then getNamespaceId_some namespaces url rest
      else if contains_char ":" ns
           then Resolved (nth 1 (js_split ":" ns) "undefined" +:+ ":")
           else Resolved ""
  end.

Definition getNamespaceId (addonPath : string) (doc : jsval) (url : string)
    : outcome string :=
  keys ← Object_keys doc;
  match keys with
  | [key0] =>
      root ← get doc key0;
      namespaces ← get root "$";
      nss ← Object_keys namespaces;
      getNamespaceId_some namespaces url nss
  | _ => Rejected (AddonFormatError ("Malformed manifest for add-on " +:+ addonPath))
  end.

(** The callback [function(doc) {...}] of parseInstallRdf. *)
Definition parseInstallRdf_then (addonPath : string) (doc : jsval)
    : outcome AddonDetails :=
  em ← getNamespaceId addonPath doc EM_NS;
  rdf ← getNamespaceId addonPath doc RDF_NS;
  rdfRoot ← get doc (rdf +:+ "RDF");
  descriptions ← get rdfRoot (rdf +:+ "Description");
  description ← get descriptions "0";
  id0 ← getNodeText description (em +:+ "id");
  name0 ← getNodeText description (em +:+ "name");
  version0 ← getNodeText description (em +:+ "version");
  text ← getNodeText description (em +:+ "unpack");
  let unpack0 := if truthy text then text else JBool false in
  let unpack1 :=
    match unpack0 with
    | JStr s => JBool (String.eqb (toLowerCase s) "true")
    | v => v
    end in
  if negb (truthy id0)
  then Rejected (AddonFormatError ("Could not find add-on ID for " +:+ addonPath))
  else Resolved {| id := id0; name := name0; version := version0; unpack := unpack1 |}.

(** [function parseManifestJson({name, version, applications})] *)
Definition parseManifestJson (addonPath : string) (json : jsval)
    : outcome AddonDetails :=
  match json with
  | JUndefined | JNull => Rejected TypeError
  | _ =>
      name0 ← get json "name";
      version0 ← get json "version";
      applications ← get json "applications";
      gecko ← (if truthy applications then get applications "gecko"
               else Resolved applications);
      found ← (if truthy gecko then g ← get applications "gecko"; get g "id"
               else Resolved gecko);
      if negb (truthy found)
      then Rejected (AddonFormatError ("Could not find add-on ID for " +:+ addonPath))
      else
        g ← get applications "gecko";
        id0 ← get g "id";
        Resolved {| id := id0; name := name0; version := version0;
                    unpack := JBool false |}
  end.

Section extension.
Context {W : Type} `{!Collaborators W}.

Definition parseXml (text : string) : Promise W jsval :=
  match xml_parseString text with
  | inl err => reject (XmlError err)
  | inr data => resolve data
  end.

Definition parseInstallRdf (addonPath rdf : string) : Promise W AddonDetails :=
  doc ← parseXml rdf;
  settle (parseInstallRdf_then addonPath doc).

(** [buf => JSON.parse(buf.toString('utf8'))] followed by
    [.then(parseManifestJson)] *)
Definition parseJsonBuffer (addonPath : string) (buf : Buffer)
    : Promise W AddonDetails :=
  match JSON_parse (Buffer_toString buf) with
  | inl err => reject (SyntaxError err)
  | inr json => settle (parseManifestJson addonPath json)
  end.

Definition parseXpiFile (addonPath filePath : string) : Promise W AddonDetails :=
  archive ← await (zip_load filePath);
  if archive_has archive "install.rdf" then
    buf ← await (archive_getFile archive "install.rdf");
    parseInstallRdf addonPath (Buffer_toString buf)
  else if archive_has archive "manifest.json" then
    buf ← await (archive_getFile archive "manifest.json");
    parseJsonBuffer addonPath buf
  else
    reject (AddonFormatError
              ("Couldn't find install.rdf or manifest.json in " +:+ filePath)).

Definition parseDirectory (addonPath dirPath : string) : Promise W AddonDetails :=
  let rdfPath := path_join dirPath "install.rdf" in
  let jsonPath := path_join dirPath "manifest.json" in
  rdfExists ← await (io_exists rdfPath);
  if rdfExists : bool then
    buf ← await (io_read rdfPath);
    parseInstallRdf addonPath (Buffer_toString buf)
  else
    jsonExists ← await (io_exists jsonPath);
    if jsonExists : bool then
      buf ← await (io_read jsonPath);
      parseJsonBuffer addonPath buf
    else
      reject (AddonFormatError
                ("Couldn't find install.rdf or manifest.json in " +:+ dirPath)).

Definition getDetails (addonPath : string) : Promise W AddonDetails :=
  stats ← await (io_stat addonPath);
  if isDirectory stats then parseDirectory addonPath addonPath
  else if String.eqb (slice_last 4 addonPath) ".xpi" then parseXpiFile addonPath addonPath
  else reject (Error ("Add-on path is not an xpi or a directory: " +:+ addonPath)).

(** [path.join(dir, details.id)]: Node throws a TypeError when an argument is
    not a string. *)
Definition join_id (dir : string) (v : jsval) : outcome string :=
  match v with
  | JStr s => Resolved (path_join dir s)
  | _ => Rejected TypeError
  end.

Definition install (extension dir : string) : Promise W jsval :=
  details ← getDetails extension;
  dst ← settle (join_id dir (id details));
  if String.eqb (slice_last 4 extension) ".xpi" then
    if negb (truthy (unpack details)) then
      _ ← await (io_copy extension (dst +:+ ".xpi"));
      resolve (id details)
    else
      _ ← await (zip_unzip extension dst);
      resolve (id details)
  else
    _ ← await (io_copyDir extension dst);
    resolve (id details).

End extension.

(** ** A model of the filesystem and archive collaborators

    [../io] and [../io/zip] are not part of the file under study.  The
    specification lists their operations (stat, exists, read, copyFile,
    copyDirectory; open, has, readEntry, extractAll) and says that their
    failures reject the promise.  This module gives them a filesystem to act
    on: a finite map from resolved paths to entries. *)

Module SpecIO.

Inductive entry : Type :=
| File (data : string)
| Directory.

Section model.
(** How the operating system reads a path, the reader of the archive format,
    and the remaining library functions stay parameters. *)
Variable resolve_path : string → list string.
Variable zip_decode : string → option (list (string * string)).
Variable join : string → string → string.
Variable parse_xml : string → string + jsval.
Variable parse_json : string → string + jsval.
Variable utf8 : string → string.

(** Modelled from the spec: [stat(path) -> {isDirectory(): bool}] of the
    filesystem collaborator ../io; a missing path is an I/O failure. *)
Definition stat (p : string) : Async (gmap (list string) entry) Stats :=
  λ fs, match fs !! resolve_path p with
        | Some Directory => (inr {| isDirectory := true |}, fs)
        | Some (File _) => (inr {| isDirectory := false |}, fs)
        | None => (inl ("ENOENT: " +:+ p), fs)
        end.

(** Modelled from the spec: [exists(path) -> bool] of ../io. *)
Definition exists_ (p : string) : Async (gmap (list string) entry) bool :=
  λ fs, (inr (bool_decide (is_Some (fs !! resolve_path p))), fs).

(** Modelled from the spec: [read(path) -> bytes] of ../io, the whole file. *)
Definition read (p : string) : Async (gmap (list string) entry) string :=
  λ fs, match fs !! resolve_path p with
        | Some (File data) => (inr data, fs)
        | Some Directory => (inl ("EISDIR: " +:+ p), fs)
        | None => (inl ("ENOENT: " +:+ p), fs)
        end.

(** Modelled from the spec: [copyFile(src, dst) -> void] of ../io, a
    single-file copy: the bytes of the regular file [src] become the file
    [dst]; nothing else changes. *)
Definition copy (src dst : string) : Async (gmap (list string) entry) unit :=
  λ fs, match fs !! resolve_path src, fs !! resolve_path dst with
        | Some (File data), (None | Some (File _)) =>
            (inr (), <[resolve_path dst := File data]> fs)
        | Some (File _), Some Directory => (inl ("EISDIR: " +:+ dst), fs)
        | Some Directory, _ => (inl ("EISDIR: " +:+ src), fs)
        | None, _ => (inl ("ENOENT: " +:+ src), fs)
        end.

(** The entries at and below [src], moved to [dst]. *)
Definition moved (src dst : list string) (fs : gmap (list string) entry)
    : list (list string * entry) :=
  omap (λ '(k, e), if bool_decide (src `prefix_of` k)
                   then Some ((dst ++ drop (length src) k)%list, e) else None)
       (map_to_list fs).

(** Modelled from the spec: [copyDirectory(src, dst) -> void] of ../io, a
    recursive copy of the directory tree [src] to [dst]. *)
Definition copyDir (src dst : string) : Async (gmap (list string) entry) unit :=
  λ fs, match fs !! resolve_path src with
        | Some Directory =>
            (inr (), list_to_map (moved (resolve_path src) (resolve_path dst) fs) ∪ fs)
        | Some (File _) => (inl ("ENOTDIR: " +:+ src), fs)
        | None => (inl ("ENOENT: " +:+ src), fs)
        end.

(** Modelled from the spec: [open(path) -> archiveHandle] of the archive
    collaborator ../io/zip; the handle is the list of entries. *)
Definition load (p : string) : Async (gmap (list string) entry) (list (string * string)) :=
  λ fs, match read p fs with
        | (inr data, fs') =>
            match zip_decode data with
            | Some entries => (inr entries, fs')
            | None => (inl ("not an archive: " +:+ p), fs')
            end
        | (inl e, fs') => (inl e, fs')
        end.

(** Modelled from the spec: [archiveHandle.has(entryName) -> bool]. *)
Definition has (archive : list (string * string)) (entryName : string) : bool :=
  bool_decide (is_Some (assoc entryName archive)).

(** Modelled from the spec: [archiveHandle.readEntry(entryName) -> bytes]. *)
Definition getFile (archive : list (string * string)) (entryName : string)
    : Async (gmap (list string) entry) string :=
  λ fs, match assoc entryName archive with
        | Some data => (inr data, fs)
        | None => (inl ("No such file in zip archive: " +:+ entryName), fs)
        end.

(** The directories on the way to an entry of an archive. *)
Definition parents (p : list string) : list (list string) :=
  (λ n, take n p) <$> seq 0 (length p).

(** Modelled from the spec: [extractAll(path, destDir) -> void] of ../io/zip:
    the entries of the archive are written below [destDir]. *)
Definition unzip (src dst : string) : Async (gmap (list string) entry) unit :=
  λ fs, match load src fs with
        | (inr entries, fs') =>
            (inr (),
             foldr (λ '(entryName, data) acc,
                      let p := (resolve_path dst ++ resolve_path entryName)%list in
                      <[p := File data]>
                        (foldr (λ d acc', <[d := Directory]> acc') acc (parents p)))
                   fs' entries)
        | (inl e, fs') => (inl e, fs')
        end.

Definition collaborators : Collaborators (gmap (list string) entry) := {|
  path_join := join;
  xml_parseString := parse_xml;
  JSON_parse := parse_json;
  Buffer := string;
  Buffer_toString := utf8;
  io_stat := stat;
  io_exists := exists_;
  io_read := read;
  io_copy := copy;
  io_copyDir := copyDir;
  Archive := list (string * string);
  zip_load := load;
  zip_unzip := unzip;
  archive_has := has;
  archive_getFile := getFile;
|}.

End model.
End SpecIO.

(** ** Sample add-ons

    Concrete manifests, library stand-ins and filesystems on which the
    theorems below are exercised. *)

Module Sample.
Import SpecIO.

Definition resolve_path (p : string) : list string :=
  filter (λ s, s ≠ "") (js_split "/" p).

Definition join (a b : string) : string := a +:+ "/" +:+ b.

Definition rdf_text : string :=
  "<RDF xmlns='http://www.w3.org/1999/02/22-rdf-syntax-ns#' " +:+
  "xmlns:em='http://www.mozilla.org/2004/em-rdf#'>" +:+
  "<Description about='urn:mozilla:install-manifest'>" +:+
  "<em:id>legacy@example.com</em:id><em:name>Legacy</em:name>" +:+
  "<em:version>1.0</em:version><em:unpack>TRUE</em:unpack>" +:+
  "</Description></RDF>".

(** What xml2js makes of such a manifest: the attributes of the root, the
    children of the description (the list is what stands for the unpack
    element: empty when the manifest has none), the description, the root and
    the document. *)
Definition rdf_attrs : list (string * jsval) :=
  [("xmlns", JStr RDF_NS); ("xmlns:em", JStr EM_NS)].

Definition rdf_children (unpackText : list jsval) : list (string * jsval) :=
  [("em:id", JArr [JStr "legacy@example.com"]);
   ("em:name", JArr [JStr "Legacy"]);
   ("em:version", JArr [JStr "1.0"])]
  ++ match unpackText with
     | [] => []
     | _ => [("em:unpack", JArr unpackText)]
     end.

Definition rdf_description (unpackText : list jsval) : jsval :=
  JObj (("$", JObj [("about", JStr "urn:mozilla:install-manifest")])
        :: rdf_children unpackText).

Definition rdf_root (unpackText : list jsval) : jsval :=
  JObj [("$", JObj rdf_attrs); ("Description", JArr [rdf_description unpackText])].

Definition rdf_doc_of (unpackText : list jsval) : jsval :=
  JObj [("RDF", rdf_root unpackText)].

Definition rdf_doc : jsval := rdf_doc_of [JStr "TRUE"].

(** A manifest whose root has no Description child. *)
Definition rdf_text_no_description : string :=
  "<RDF xmlns='http://www.w3.org/1999/02/22-rdf-syntax-ns#' " +:+
  "xmlns:em='http://www.mozilla.org/2004/em-rdf#'/>".

Definition rdf_no_description : jsval :=
  JObj [("RDF", JObj [("$", JObj rdf_attrs)])].

(** The double quote, and a quoted JSON string. *)
Definition dq : string := String (ascii_of_nat 34) EmptyString.
Definition quoted (s : string) : string := dq +:+ s +:+ dq.

Definition json_text : string :=
  "{" +:+ quoted "name" +:+ ": " +:+ quoted "Modern" +:+ ", " +:+
  quoted "version" +:+ ": " +:+ quoted "2.0" +:+ ", " +:+
  quoted "applications" +:+ ": {" +:+ quoted "gecko" +:+ ": {" +:+
  quoted "id" +:+ ": " +:+ quoted "modern@example.com" +:+ "}}}".

Definition json_props (idv : jsval) : list (string * jsval) :=
  [("name", JStr "Modern"); ("version", JStr "2.0");
   ("applications", JObj [("gecko", JObj [("id", idv)])])].

Definition json_of (idv : jsval) : jsval := JObj (json_props idv).

Definition json_doc : jsval := json_of (JStr "modern@example.com").

Definition parse_xml (text : string) : string + jsval :=
  if String.eqb text rdf_text then inr rdf_doc
  else if String.eqb text rdf_text_no_description then inr rdf_no_description
  else inl "Unclosed root tag".

Definition parse_json (text : string) : string + jsval :=
  if String.eqb text json_text then inr json_doc
  else inl "Unexpected token".

Definition zip_decode (data : string) : option (list (string * string)) :=
  if String.eqb data "PK-legacy" then Some [("install.rdf", rdf_text)]
  else if String.eqb data "PK-modern" then Some [("manifest.json", json_text)]
  else if String.eqb data "PK-empty" then Some []
  else None.

Definition io : Collaborators (gmap (list string) entry) :=
  collaborators resolve_path zip_decode join parse_xml parse_json (λ s, s).

(** A profile directory, a text file, and add-ons: a packed modern one, a
    directory with both manifests, a directory with a modern manifest only, a
    directory with no manifest, and a modern add-on kept in a directory whose
    name ends in [.xpi]. *)
Definition disk : gmap (list string) entry :=
  list_to_map
    [(["profile"], Directory);
     (["ext"], Directory);
     (["ext"; "notes.txt"], File "notes");
     (["ext"; "modern.xpi"], File "PK-modern");
     (["ext"; "both"], Directory);
     (["ext"; "both"; "install.rdf"], File rdf_text);
     (["ext"; "both"; "manifest.json"], File json_text);
     (["ext"; "webext"], Directory);
     (["ext"; "webext"; "manifest.json"], File json_text);
     (["ext"; "webext"; "icons"], Directory);
     (["ext"; "webext"; "icons"; "a.png"], File "PNG");
     (["ext"; "empty"], Directory);
     (["ext"; "unpacked.xpi"], Directory);
     (["ext"; "unpacked.xpi"; "manifest.json"], File json_text)].

End Sample.

(** * The vocabulary of the statements *)

(** A value on which property access throws. *)
Definition nullish (v : jsval) : bool :=
  match v with JUndefined | JNull => true | _ => false end.

(** The value at the end of a path of own properties. *)
Definition lookup_path (v : jsval) (path : list string) : option jsval :=
  foldl (λ o k, o ≫= λ v', lookup_own v' k) (Some v) path.

(** The attribute that binds [url]: the first one, in the order of
    [Object.keys], whose value is the string [url]. *)
Definition binds (attrs : list (string * jsval)) (url ns : string) : bool :=
  strict_eq_str (default JUndefined (assoc ns attrs)) url.

Definition first_bound (attrs : list (string * jsval)) (url : string)
    : option string :=
  List.find (binds attrs url) (keys_of attrs).

(** What the resolver makes of the name of the binding attribute. *)
Definition prefix_of_attribute (ns : string) : string :=
  if contains_char ":" ns then nth 1 (js_split ":" ns) "undefined" +:+ ":" else "".

(** The value of [details.unpack] for what getNodeText returned. *)
Definition unpack_of (text : jsval) : jsval :=
  let unpack0 := if truthy text then text else JBool false in
  match unpack0 with
  | JStr s => JBool (String.eqb (toLowerCase s) "true")
  | v => v
  end.

(** A text that is [true] up to the case of its four letters. *)
Definition spelled_true (s : string) : Prop :=
  ∃ c1 c2 c3 c4 : ascii,
    s = String c1 (String c2 (String c3 (String c4 EmptyString))) ∧
    (c1 = "t" ∨ c1 = "T")%char ∧ (c2 = "r" ∨ c2 = "R")%char ∧
    (c3 = "u" ∨ c3 = "U")%char ∧ (c4 = "e" ∨ c4 = "E")%char.

(** [clean o] says that [o] is not a rejection with the plain [Error] that
    getDetails throws. *)
Definition clean {A} (o : outcome A) : Prop :=
  match o with
  | Rejected (Error _) => False
  | _ => True
  end.

Definition clean_promise {W A} (p : Promise W A) : Prop := ∀ w, clean (p w).1.

Definition is_AddonFormatError {A : Type} (o : outcome A) : bool :=
  match o with
  | Rejected (AddonFormatError _) => true
  | _ => false
  end.

(** A promise that only reads leaves the filesystem as it was. *)
Definition reads {A : Type} (p : Promise (gmap (list string) SpecIO.entry) A) : Prop :=
  ∀ fs, (p fs).2 = fs.

(** ** More vocabulary *)

(** What getNodeText can return: a truthy value or the empty string. *)
Definition text_like (v : jsval) : Prop := truthy v = true ∨ v = JStr "".

(** [post P o]: when [o] is a resolution, its value satisfies [P]. *)
Definition post {A : Type} (P : A → Prop) (o : outcome A) : Prop :=
  match o with
  | Resolved a => P a
  | Rejected _ => True
  end.

Definition post_promise {W A : Type} (P : A → Prop) (p : Promise W A) : Prop :=
  ∀ w, post P (p w).1.

(** How [p.then(() => v)] settles when the collaborator promise [p] settled
    as [r]: a rejection of [p] is the rejection of the whole. *)
Definition then_value {W A : Type} (v : jsval) (r : (string + A) * W)
    : outcome jsval * W :=
  match r with
  | (inr _, w) => (Resolved v, w)
  | (inl e, w) => (Rejected (IoError e), w)
  end.

(** *** Manifests as xml2js hands them over

    The document of an install.rdf that binds the add-on namespace to the
    prefix [e] and the RDF namespace to the prefix [r] ([None] is the default
    namespace), with the given texts in its id, name, version and unpack
    elements.  It has the shape of [Sample.rdf_doc]: the root holds its
    attributes under [$] and the list of its Description children; the
    description holds one list of texts per child element. *)
Definition tag_prefix (p : option string) : string :=
  match p with Some x => x +:+ ":" | None => "" end.

Definition xmlns_attr (p : option string) : string :=
  match p with Some x => "xmlns:" +:+ x | None => "xmlns" end.

(** A prefix has no colon of its own. *)
Definition prefix_ok (p : option string) : Prop :=
  match p with Some x => contains_char ":" x = false | None => True end.

Definition manifest_description (e : option string)
    (idv namev versionv : string) (unpackv : option string) : jsval :=
  JObj ([("$", JObj [("about", JStr "urn:mozilla:install-manifest")]);
         (tag_prefix e +:+ "id", JArr [JStr idv]);
         (tag_prefix e +:+ "name", JArr [JStr namev]);
         (tag_prefix e +:+ "version", JArr [JStr versionv])]
        ++ match unpackv with
           | Some u => [(tag_prefix e +:+ "unpack", JArr [JStr u])]
           | None => []
           end).

Definition manifest_attrs (e r : option string) : list (string * jsval) :=
  [(xmlns_attr r, JStr RDF_NS); (xmlns_attr e, JStr EM_NS)].

Definition manifest_root (e r : option string)
    (idv namev versionv : string) (unpackv : option string) : jsval :=
  JObj [("$", JObj (manifest_attrs e r));
        (tag_prefix r +:+ "Description",
         JArr [manifest_description e idv namev versionv unpackv])].

Definition manifest_doc (e r : option string)
    (idv namev versionv : string) (unpackv : option string) : jsval :=
  JObj [(tag_prefix r +:+ "RDF", manifest_root e r idv namev versionv unpackv)].

(** *** More sample add-ons

    Archives with both manifests, with a manifest that is not JSON, with no
    manifest and with bytes that are no archive; directories with a legacy
    manifest, with a manifest that is not JSON, and with an install.rdf that
    is itself a directory; a profile in which the place of the packed modern
    add-on is taken by a directory. *)
Module Cases.
Import SpecIO.

Definition zip_decode (data : string) : option (list (string * string)) :=
  if String.eqb data "PK-both"
  then Some [("manifest.json", Sample.json_text); ("install.rdf", Sample.rdf_text)]
  else if String.eqb data "PK-badjson" then Some [("manifest.json", "{")]
  else Sample.zip_decode data.

Definition io : Collaborators (gmap (list string) entry) :=
  collaborators Sample.resolve_path zip_decode Sample.join Sample.parse_xml
    Sample.parse_json (λ s, s).

Definition disk : gmap (list string) entry :=
  list_to_map
    [(["profile"], Directory);
     (["profile"; "modern@example.com.xpi"], Directory);
     (["ext"], Directory);
     (["ext"; "legacy.xpi"], File "PK-legacy");
     (["ext"; "both.xpi"], File "PK-both");
     (["ext"; "modern.xpi"], File "PK-modern");
     (["ext"; "empty.xpi"], File "PK-empty");
     (["ext"; "garbage.xpi"], File "garbage");
     (["ext"; "badjson.xpi"], File "PK-badjson");
     (["ext"; "badjson"], Directory);
     (["ext"; "badjson"; "manifest.json"], File "{");
     (["ext"; "legacydir"], Directory);
     (["ext"; "legacydir"; "install.rdf"], File Sample.rdf_text);
     (["ext"; "legacydir"; "chrome"], Directory);
     (["ext"; "legacydir"; "chrome"; "a.js"], File "js");
     (["ext"; "rdfdir"], Directory);
     (["ext"; "rdfdir"; "install.rdf"], Directory)].

Definition legacy_details : AddonDetails :=
  {| id := JStr "legacy@example.com"; name := JStr "Legacy";
     version := JStr "1.0"; unpack := JBool true |}.

Definition modern_details : AddonDetails :=
  {| id := JStr "modern@example.com"; name := JStr "Modern";
     version := JStr "2.0"; unpack := JBool false |}.

(** What xml2js makes of an element that carries an attribute, here
    [xml:lang='en']: an object with the text under [_] (no such key when the
    element is empty) and the attributes under [$]. *)
Definition attributed_element (text : option string) : jsval :=
  JObj (match text with
        | Some s => [("_", JStr s)]
        | None => []
        end ++ [("$", JObj [("xml:lang", JStr "en")])])%list.

(** The sample manifest with [<em:id xml:lang='en'/>] for its id element. *)
Definition rdf_doc_attributed_id : jsval :=
  JObj [("RDF",
         JObj [("$", JObj Sample.rdf_attrs);
               ("Description",
                JArr [JObj [("em:id", JArr [attributed_element None]);
                            ("em:name", JArr [JStr "Legacy"]);
                            ("em:version", JArr [JStr "1.0"])]])])].

End Cases.

(** * Properties *)

(** ** The embedding on the samples *)

Example slice_last_examples :
  slice_last 4 "/ext/modern.xpi" = ".xpi" ∧ slice_last 4 "xpi" = "xpi" ∧
  slice_last 4 "/ext/webext" = "bext".
Proof. by split_and!. Qed.

Example js_split_examples :
  js_split ":" "xmlns:em" = ["xmlns"; "em"] ∧ js_split ":" "xmlns" = ["xmlns"] ∧
  js_split ":" "a:b:c" = ["a"; "b"; "c"] ∧ js_split ":" "xmlns:" = ["xmlns"; ""].
Proof. by split_and!. Qed.

Example toLowerCase_examples :
  toLowerCase "TRUE" = "true" ∧ toLowerCase "tRuE" = "true" ∧
  toLowerCase "False" = "false".
Proof. by split_and!. Qed.

Example Object_keys_examples :
  Object_keys Sample.rdf_doc = Resolved ["RDF"] ∧
  Object_keys (JObj Sample.rdf_attrs) = Resolved ["xmlns"; "xmlns:em"] ∧
  Object_keys (JArr [JStr "a"; JStr "b"]) = Resolved ["0"; "1"] ∧
  Object_keys JUndefined = Rejected TypeError.
Proof. by split_and!. Qed.

(** The sample manifests give the details one expects. *)
Example parse_samples :
  parseInstallRdf_then "/ext/both" Sample.rdf_doc =
    Resolved {| id := JStr "legacy@example.com"; name := JStr "Legacy";
                version := JStr "1.0"; unpack := JBool true |} ∧
  parseManifestJson "/ext/webext" Sample.json_doc =
    Resolved {| id := JStr "modern@example.com"; name := JStr "Modern";
                version := JStr "2.0"; unpack := JBool false |}.
Proof. by split. Qed.

(** A directory with a modern manifest is copied, tree and all, under its id;
    a directory with both manifests goes under the id of install.rdf. *)
Example install_directories :
  let after := (install (Collaborators0:=Sample.io) "/ext/webext" "/profile"
                  Sample.disk) in
  after.1 = Resolved (JStr "modern@example.com") ∧
  after.2 !! ["profile"; "modern@example.com"] = Some SpecIO.Directory ∧
  after.2 !! ["profile"; "modern@example.com"; "manifest.json"] =
    Some (SpecIO.File Sample.json_text) ∧
  after.2 !! ["profile"; "modern@example.com"; "icons"; "a.png"] =
    Some (SpecIO.File "PNG") ∧
  (install (Collaborators0:=Sample.io) "/ext/both" "/profile" Sample.disk).1 =
    Resolved (JStr "legacy@example.com").
Proof. split_and!; reflexivity. Qed.

(** ** Running promises *)

Section promise_facts.
Context {W : Type}.

Lemma then_resolved {A B} (p : Promise W A) (f : A → Promise W B) w a w' :
  p w = (Resolved a, w') → (p ≫= f) w = f a w'.
Proof. intros Hp. unfold mbind, Promise_bind, then_. by rewrite Hp. Qed.

Lemma then_rejected {A B} (p : Promise W A) (f : A → Promise W B) w e w' :
  p w = (Rejected e, w') → (p ≫= f) w = (Rejected e, w').
Proof. intros Hp. unfold mbind, Promise_bind, then_. by rewrite Hp. Qed.

Lemma then_inv {A B} (p : Promise W A) (f : A → Promise W B) w r w' :
  (p ≫= f) w = (r, w') →
  (∃ e, p w = (Rejected e, w') ∧ r = Rejected e) ∨
  (∃ a w1, p w = (Resolved a, w1) ∧ f a w1 = (r, w')).
Proof.
  unfold mbind, Promise_bind, then_.
  destruct (p w) as [[a|e] w1]; intros Hr.
  - right. by exists a, w1.
  - left. exists e. by simplify_eq.
Qed.

Lemma await_resolved {A} (p : Async W A) w a w' :
  p w = (inr a, w') → await p w = (Resolved a, w').
Proof. intros Hp. unfold await. by rewrite Hp. Qed.

Lemma await_rejected {A} (p : Async W A) w e w' :
  p w = (inl e, w') → await p w = (Rejected (IoError e), w').
Proof. intros Hp. unfold await. by rewrite Hp. Qed.

Lemma settle_then {A B} (o : outcome A) (f : A → Promise W B) w :
  (settle o ≫= f) w =
  match o with Resolved a => f a w | Rejected e => (Rejected e, w) end.
Proof. by destruct o. Qed.

End promise_facts.

(** One step of a chain: the awaited collaborator resolved, or rejected. *)
Ltac await_resolves H :=
  rewrite (then_resolved _ _ _ _ _ (await_resolved _ _ _ _ H)).
Ltac await_rejects H :=
  rewrite (then_rejected _ _ _ _ _ (await_rejected _ _ _ _ H)).

(** ** Where the plain [Error] comes from *)

Lemma clean_bind {A B} (o : outcome A) (f : A → outcome B) :
  clean o → (∀ a, clean (f a)) → clean (o ≫= f).
Proof. destruct o as [a|[]]; simpl; auto. Qed.

Lemma clean_get v k : clean (get v k).
Proof. by destruct v. Qed.

Lemma clean_Object_keys v : clean (Object_keys v).
Proof. by destruct v. Qed.

Create HintDb clean.
#[local] Hint Resolve clean_get clean_Object_keys : clean.

(** A chain of binds is clean when each of its steps is. *)
Ltac clean_steps :=
  repeat first
    [ solve [auto with clean]
    | done
    | match goal with
      | |- clean (if ?b then _ else _) => destruct b
      | |- clean (_ ≫= _) => apply clean_bind; [|intros ?]
      end ].

Lemma clean_getNodeText node k : clean (getNodeText node k).
Proof. unfold getNodeText. clean_steps. Qed.

Lemma clean_getNamespaceId_some namespaces url nss :
  clean (getNamespaceId_some namespaces url nss).
Proof. induction nss as [|ns rest IH]; [done|]. simpl. clean_steps. Qed.

#[local] Hint Resolve clean_getNodeText clean_getNamespaceId_some : clean.

Lemma clean_getNamespaceId addonPath doc url :
  clean (getNamespaceId addonPath doc url).
Proof.
  unfold getNamespaceId. apply clean_bind; [auto with clean|].
  intros [|key0 [|]]; clean_steps.
Qed.

#[local] Hint Resolve clean_getNamespaceId : clean.

Lemma clean_parseInstallRdf_then addonPath doc :
  clean (parseInstallRdf_then addonPath doc).
Proof. unfold parseInstallRdf_then. clean_steps. Qed.

Lemma clean_parseManifestJson addonPath json :
  clean (parseManifestJson addonPath json).
Proof. unfold parseManifestJson. destruct json; clean_steps. Qed.

Section clean_promises.
Context {W : Type} `{!Collaborators W}.

Lemma clean_then {A B} (p : Promise W A) (f : A → Promise W B) :
  clean_promise p → (∀ a, clean_promise (f a)) → clean_promise (p ≫= f).
Proof.
  intros Hp Hf w. unfold mbind, Promise_bind, then_.
  specialize (Hp w). destruct (p w) as [[a|e] w1]; [apply Hf|done].
Qed.

Lemma clean_await {A} (p : Async W A) : clean_promise (await p).
Proof. intros w. unfold await. by destruct (p w) as [[e|a] w1]. Qed.

Lemma clean_settle {A} (o : outcome A) : clean o → clean_promise (W:=W) (settle o).
Proof. intros Ho w. exact Ho. Qed.

Lemma clean_parseInstallRdf addonPath rdf :
  clean_promise (parseInstallRdf addonPath rdf).
Proof.
  unfold parseInstallRdf. apply clean_then.
  - unfold parseXml. by destruct (xml_parseString rdf).
  - intros doc. apply clean_settle, clean_parseInstallRdf_then.
Qed.

Lemma clean_parseJsonBuffer addonPath buf :
  clean_promise (parseJsonBuffer addonPath buf).
Proof.
  unfold parseJsonBuffer. destruct (JSON_parse _); [done|].
  apply clean_settle, clean_parseManifestJson.
Qed.

Lemma clean_parseXpiFile addonPath filePath :
  clean_promise (parseXpiFile addonPath filePath).
Proof.
  unfold parseXpiFile. apply clean_then; [apply clean_await|]. intros archive.
  repeat case_match; try done.
  - apply clean_then; [apply clean_await|]. intros buf. apply clean_parseInstallRdf.
  - apply clean_then; [apply clean_await|]. intros buf. apply clean_parseJsonBuffer.
Qed.

Lemma clean_parseDirectory addonPath dirPath :
  clean_promise (parseDirectory addonPath dirPath).
Proof.
  unfold parseDirectory. apply clean_then; [apply clean_await|]. intros [].
  - apply clean_then; [apply clean_await|]. intros buf. apply clean_parseInstallRdf.
  - apply clean_then; [apply clean_await|]. intros [].
    + apply clean_then; [apply clean_await|]. intros buf. apply clean_parseJsonBuffer.
    + done.
Qed.

(** What install does once getDetails has resolved. *)
Lemma clean_install_rest extension dir (details : AddonDetails) :
  clean_promise
    (dst ← settle (join_id dir (id details));
     if String.eqb (slice_last 4 extension) ".xpi" then
       if negb (truthy (unpack details)) then
         _ ← await (io_copy extension (dst +:+ ".xpi"));
         resolve (id details)
       else
         _ ← await (zip_unzip extension dst);
         resolve (id details)
     else
       _ ← await (io_copyDir extension dst);
       resolve (W:=W) (id details)).
Proof.
  apply clean_then.
  - apply clean_settle. unfold join_id. by destruct (id details).
  - intros dst. repeat case_match.
    all: apply clean_then; [apply clean_await|done].
Qed.

End clean_promises.

(** ** The source locator and the installer against any collaborators *)

Section locator.
Context {W : Type} `{!Collaborators W}.

Lemma parseXml_resolved text doc (w : W) :
  xml_parseString text = inr doc → parseXml text w = (Resolved doc, w).
Proof. intros Hx. unfold parseXml. by rewrite Hx. Qed.

Lemma parseInstallRdf_parsed addonPath text doc (w : W) :
  xml_parseString text = inr doc →
  parseInstallRdf addonPath text w = (parseInstallRdf_then addonPath doc, w).
Proof.
  intros Hx. unfold parseInstallRdf.
  by rewrite (then_resolved _ _ _ _ _ (parseXml_resolved _ _ w Hx)).
Qed.

Lemma getDetails_stat_rejected addonPath (w w' : W) e :
  io_stat addonPath w = (inl e, w') →
  getDetails addonPath w = (Rejected (IoError e), w').
Proof.
  intros Hs. unfold getDetails.
  by await_rejects Hs.
Qed.

Lemma getDetails_stat_resolved addonPath (w w' : W) stats :
  io_stat addonPath w = (inr stats, w') →
  getDetails addonPath w =
  (if isDirectory stats then parseDirectory addonPath addonPath
   else if String.eqb (slice_last 4 addonPath) ".xpi"
        then parseXpiFile addonPath addonPath
        else reject (Error ("Add-on path is not an xpi or a directory: " +:+ addonPath)))
    w'.
Proof.
  intros Hs. unfold getDetails.
  by await_resolves Hs.
Qed.

(** Only the last branch of getDetails rejects with the plain [Error]. *)
Lemma getDetails_Error addonPath (w w' : W) msg :
  getDetails addonPath w = (Rejected (Error msg), w') ↔
  ∃ stats, io_stat addonPath w = (inr stats, w') ∧ isDirectory stats = false ∧
    slice_last 4 addonPath ≠ ".xpi" ∧
    msg = "Add-on path is not an xpi or a directory: " +:+ addonPath.
Proof.
  split.
  - destruct (io_stat addonPath w) as [[e|stats] w1] eqn:Hs.
    { rewrite (getDetails_stat_rejected _ _ _ _ Hs). intros [=]. }
    rewrite (getDetails_stat_resolved _ _ _ _ Hs).
    destruct (isDirectory stats) eqn:Hd.
    { intros Hr. pose proof (clean_parseDirectory addonPath addonPath w1) as Hc.
      by rewrite Hr in Hc. }
    destruct (String.eqb_spec (slice_last 4 addonPath) ".xpi") as [Hx|Hx].
    { intros Hr. pose proof (clean_parseXpiFile addonPath addonPath w1) as Hc.
      by rewrite Hr in Hc. }
    intros [= <- <-]. by exists stats.
  - intros (stats & Hs & Hd & Hx & ->).
    rewrite (getDetails_stat_resolved _ _ _ _ Hs), Hd.
    by destruct (String.eqb_spec (slice_last 4 addonPath) ".xpi").
Qed.

Lemma install_Error extension dir (w w' : W) msg :
  install extension dir w = (Rejected (Error msg), w') ↔
  getDetails extension w = (Rejected (Error msg), w').
Proof.
  unfold install. split.
  - intros Hi. apply then_inv in Hi as [(e & Hg & [= <-])|(details & w1 & Hg & Hr)]; [done|].
    pose proof (clean_install_rest extension dir details w1) as Hc.
    by rewrite Hr in Hc.
  - intros Hg. by rewrite (then_rejected _ _ _ _ _ Hg).
Qed.

(** C9. When the stat of the path fails, install rejects with the error of
    the stat and runs no other collaborator, whatever the path ends in: the
    world is left as the stat left it.  The plain [Error] that reports an
    invalid source is the rejection of install exactly when the stat
    succeeded, the path is not a directory and it does not end in [.xpi]. *)
Theorem install_stat_error (extension dir : string) (w : W) :
  (∀ e w', io_stat extension w = (inl e, w') →
     install extension dir w = (Rejected (IoError e), w')) ∧
  (∀ msg w', install extension dir w = (Rejected (Error msg), w') ↔
     ∃ stats, io_stat extension w = (inr stats, w') ∧
       isDirectory stats = false ∧ slice_last 4 extension ≠ ".xpi" ∧
       msg = "Add-on path is not an xpi or a directory: " +:+ extension).
Proof.
  split.
  - intros e w' Hs. unfold install.
    by rewrite (then_rejected _ _ _ _ _ (getDetails_stat_rejected _ _ _ _ Hs)).
  - intros msg w'. rewrite install_Error. apply getDetails_Error.
Qed.

(** C3. In a directory, an existing install.rdf is read and handed to the
    legacy parser, and manifest.json is not even looked for; when install.rdf
    does not exist and manifest.json does, the latter is read, parsed as JSON
    and handed to the modern parser; when neither exists the promise is
    rejected with an AddonFormatError whose message ends in the directory. *)
Theorem parseDirectory_dispatch (addonPath dirPath : string) (w : W) :
  (∀ w1 w2 buf,
     io_exists (path_join dirPath "install.rdf") w = (inr true, w1) →
     io_read (path_join dirPath "install.rdf") w1 = (inr buf, w2) →
     parseDirectory addonPath dirPath w =
       parseInstallRdf addonPath (Buffer_toString buf) w2) ∧
  (∀ w1 w2 w3 buf json,
     io_exists (path_join dirPath "install.rdf") w = (inr false, w1) →
     io_exists (path_join dirPath "manifest.json") w1 = (inr true, w2) →
     io_read (path_join dirPath "manifest.json") w2 = (inr buf, w3) →
     JSON_parse (Buffer_toString buf) = inr json →
     parseDirectory addonPath dirPath w = (parseManifestJson addonPath json, w3)) ∧
  (∀ w1 w2,
     io_exists (path_join dirPath "install.rdf") w = (inr false, w1) →
     io_exists (path_join dirPath "manifest.json") w1 = (inr false, w2) →
     parseDirectory addonPath dirPath w =
       (Rejected (AddonFormatError
                    ("Couldn't find install.rdf or manifest.json in " +:+ dirPath)),
        w2)).
Proof.
  unfold parseDirectory. repeat split.
  - intros w1 w2 buf He Hr.
    await_resolves He.
    by await_resolves Hr.
  - intros w1 w2 w3 buf json He1 He2 Hr Hj.
    await_resolves He1.
    await_resolves He2.
    await_resolves Hr.
    unfold parseJsonBuffer. by rewrite Hj.
  - intros w1 w2 He1 He2.
    await_resolves He1.
    by await_resolves He2.
Qed.

(** C4, as the code has it.  A text for which xml2js reports an error
    rejects the promise of the legacy parser with that error of xml2js, as it
    was handed over: it is not turned into an AddonFormatError. *)
Theorem parseInstallRdf_xml_error (addonPath text err : string) (w : W) :
  xml_parseString text = inl err →
  parseInstallRdf addonPath text w = (Rejected (XmlError err), w).
Proof.
  intros Hx. unfold parseInstallRdf.
  apply then_rejected. unfold parseXml. by rewrite Hx.
Qed.

End locator.

(** ** The namespace resolver *)

Lemma getNamespaceId_root_count addonPath doc keys url :
  Object_keys doc = Resolved keys → length keys ≠ 1 →
  getNamespaceId addonPath doc url =
    Rejected (AddonFormatError ("Malformed manifest for add-on " +:+ addonPath)).
Proof.
  intros Hk Hn. unfold getNamespaceId. rewrite Hk. simpl.
  by destruct keys as [|key0 [|]].
Qed.

(** C8. A document whose root object has no key, or more than one,
    makes the namespace resolver fail with an AddonFormatError, and with it
    the callback of the legacy parser and the promise of the parser. *)
Theorem legacy_root_count {W : Type} `{!Collaborators W}
    (addonPath : string) (doc : jsval) (keys : list string) :
  Object_keys doc = Resolved keys → length keys ≠ 1 →
  (∀ url, getNamespaceId addonPath doc url =
     Rejected (AddonFormatError ("Malformed manifest for add-on " +:+ addonPath))) ∧
  parseInstallRdf_then addonPath doc =
    Rejected (AddonFormatError ("Malformed manifest for add-on " +:+ addonPath)) ∧
  (∀ text (w : W), xml_parseString text = inr doc →
     parseInstallRdf addonPath text w =
       (Rejected (AddonFormatError ("Malformed manifest for add-on " +:+ addonPath)), w)).
Proof.
  intros Hk Hn.
  assert (parseInstallRdf_then addonPath doc =
          Rejected (AddonFormatError ("Malformed manifest for add-on " +:+ addonPath)))
    as Hthen.
  { unfold parseInstallRdf_then.
    by rewrite (getNamespaceId_root_count _ _ _ EM_NS Hk Hn). }
  split_and!; [|done|].
  - intros url. by apply getNamespaceId_root_count with keys.
  - intros text w Hx. by rewrite (parseInstallRdf_parsed _ _ _ _ Hx), Hthen.
Qed.

Lemma getNamespaceId_some_find attrs url nss :
  getNamespaceId_some (JObj attrs) url nss =
  Resolved (from_option prefix_of_attribute "" (List.find (binds attrs url) nss)).
Proof.
  induction nss as [|ns rest IH]; [done|].
  simpl. unfold binds at 1. destruct (strict_eq_str _ url); simpl; [|done].
  unfold prefix_of_attribute. by destruct (contains_char ":" ns).
Qed.

Lemma getNamespaceId_first_bound addonPath docProps root rootv attrs url :
  keys_of docProps = [root] → assoc root docProps = Some rootv →
  lookup_own rootv "$" = Some (JObj attrs) →
  getNamespaceId addonPath (JObj docProps) url =
  Resolved (from_option prefix_of_attribute "" (first_bound attrs url)).
Proof.
  intros Hk Hr Ha. unfold getNamespaceId. simpl. rewrite Hk. simpl. rewrite Hr. simpl.
  assert (get rootv "$" = Resolved (JObj attrs)) as ->.
  { unfold get. rewrite Ha. by destruct rootv. }
  simpl. apply getNamespaceId_some_find.
Qed.

Lemma contains_char_app c s t :
  contains_char c (s +:+ t) = contains_char c s || contains_char c t.
Proof. induction s as [|a s IH]; simpl; [done|]. by rewrite IH, orb_assoc. Qed.

Lemma js_split_none c s : contains_char c s = false → js_split c s = [s].
Proof.
  induction s as [|a s IH]; simpl; [done|].
  intros [Ha Hs]%orb_false_elim. rewrite Ha, (IH Hs). done.
Qed.

Lemma js_split_app c p r :
  contains_char c p = false → js_split c (p +:+ String c r) = p :: js_split c r.
Proof.
  induction p as [|a p IH]; simpl.
  - intros _. by rewrite Ascii.eqb_refl.
  - intros [Ha Hp]%orb_false_elim. by rewrite Ha, (IH Hp).
Qed.

Lemma prefix_of_attribute_prefixed p x :
  contains_char ":" p = false → contains_char ":" x = false →
  prefix_of_attribute (p +:+ ":" +:+ x) = x +:+ ":".
Proof.
  intros Hp Hx. unfold prefix_of_attribute.
  rewrite contains_char_app. simpl. rewrite orb_true_r.
  change (":" +:+ x) with (String ":" x).
  by rewrite (js_split_app _ _ _ Hp), (js_split_none _ _ Hx).
Qed.


(** Without the attribute map the resolver does not come to an answer. *)
Lemma getNamespaceId_no_attributes addonPath docProps root rootv url :
  keys_of docProps = [root] → assoc root docProps = Some rootv →
  lookup_own rootv "$" = None →
  getNamespaceId addonPath (JObj docProps) url = Rejected TypeError.
Proof.
  intros Hk Hr Ha. unfold getNamespaceId. simpl. rewrite Hk. simpl. rewrite Hr. simpl.
  unfold get. rewrite Ha. by destruct rootv.
Qed.

(** ** The legacy manifest parser *)

Lemma truthy_not_nullish v : truthy v = true → nullish v = false.
Proof. by destruct v. Qed.

Lemma get_not_nullish v k :
  nullish v = false → get v k = Resolved (default JUndefined (lookup_own v k)).
Proof. by destruct v. Qed.

Lemma get_resolved_not_nullish v k r : get v k = Resolved r → nullish v = false.
Proof. by destruct v. Qed.

Lemma lookup_own_not_nullish v k r : lookup_own v k = Some r → nullish v = false.
Proof. by destruct v. Qed.

Lemma getNodeText_resolved_not_nullish node k r :
  getNodeText node k = Resolved r → nullish node = false.
Proof. by destruct node. Qed.

(** getNodeText does not throw on a node that is there. *)
Lemma getNodeText_total node k :
  nullish node = false → ∃ r, getNodeText node k = Resolved r.
Proof.
  intros Hn. unfold getNodeText. rewrite (get_not_nullish _ _ Hn). simpl.
  destruct (truthy (default JUndefined (lookup_own node k))) eqn:Ht; simpl; [|eauto].
  rewrite (get_not_nullish _ _ (truthy_not_nullish _ Ht)). simpl. eauto.
Qed.

(** The text of a child element that xml2js stored as a string. *)
Lemma getNodeText_text node k s more :
  lookup_own node k = Some (JArr (JStr s :: more)) →
  getNodeText node k = Resolved (JStr s).
Proof.
  intros Hl. unfold getNodeText.
  rewrite (get_not_nullish _ _ (lookup_own_not_nullish _ _ _ Hl)), Hl. simpl.
  by destruct s.
Qed.

Lemma getNodeText_absent node k :
  nullish node = false → lookup_own node k = None →
  getNodeText node k = Resolved (JStr "").
Proof.
  intros Hn Hl. unfold getNodeText. by rewrite (get_not_nullish _ _ Hn), Hl.
Qed.

(** An element with attributes is stored by xml2js as an object: getNodeText
    returns the object, and [unpack] keeps it. *)
Lemma getNodeText_element node k props more :
  lookup_own node k = Some (JArr (JObj props :: more)) →
  getNodeText node k = Resolved (JObj props) ∧ unpack_of (JObj props) = JObj props.
Proof.
  intros Hl. unfold getNodeText.
  by rewrite (get_not_nullish _ _ (lookup_own_not_nullish _ _ _ Hl)), Hl.
Qed.

(** Lower-casing yields [true] exactly for the sixteen spellings of the word. *)
Ltac ascii_cases c :=
  destruct c as [[] [] [] [] [] [] [] []]; vm_compute;
  first [ by split; [intros _; eauto | intros _; reflexivity]
        | by split; [intros Hc; discriminate Hc | intros [Hc|Hc]; discriminate Hc] ].

Lemma lower_char_t c : lower_char c = "t"%char ↔ (c = "t" ∨ c = "T")%char.
Proof. ascii_cases c. Qed.

Lemma lower_char_r c : lower_char c = "r"%char ↔ (c = "r" ∨ c = "R")%char.
Proof. ascii_cases c. Qed.

Lemma lower_char_u c : lower_char c = "u"%char ↔ (c = "u" ∨ c = "U")%char.
Proof. ascii_cases c. Qed.

Lemma lower_char_e c : lower_char c = "e"%char ↔ (c = "e" ∨ c = "E")%char.
Proof. ascii_cases c. Qed.

Lemma toLowerCase_true s : toLowerCase s = "true" ↔ spelled_true s.
Proof.
  unfold spelled_true. split.
  - destruct s as [|c1 [|c2 [|c3 [|c4 [|c5 s]]]]]; simpl; try (intros Hs; discriminate Hs).
    intros [= H1 H2 H3 H4]. exists c1, c2, c3, c4.
    rewrite <- lower_char_t, <- lower_char_r, <- lower_char_u, <- lower_char_e.
    done.
  - intros (c1 & c2 & c3 & c4 & -> & H1 & H2 & H3 & H4). simpl.
    apply lower_char_t in H1. apply lower_char_r in H2.
    apply lower_char_u in H3. apply lower_char_e in H4. congruence.
Qed.

Lemma parseInstallRdf_then_located addonPath doc em rdf rdfRoot descriptions
    description idv :
  getNamespaceId addonPath doc EM_NS = Resolved em →
  getNamespaceId addonPath doc RDF_NS = Resolved rdf →
  get doc (rdf +:+ "RDF") = Resolved rdfRoot →
  get rdfRoot (rdf +:+ "Description") = Resolved descriptions →
  get descriptions "0" = Resolved description →
  getNodeText description (em +:+ "id") = Resolved idv → truthy idv = true →
  ∃ namev versionv text,
    getNodeText description (em +:+ "unpack") = Resolved text ∧
    parseInstallRdf_then addonPath doc =
      Resolved {| id := idv; name := namev; version := versionv;
                  unpack := unpack_of text |}.
Proof.
  intros Hem Hrdf Hroot Hds Hd Hid Ht.
  pose proof (getNodeText_resolved_not_nullish _ _ _ Hid) as Hn.
  destruct (getNodeText_total description (em +:+ "name") Hn) as [namev Hname].
  destruct (getNodeText_total description (em +:+ "version") Hn) as [versionv Hversion].
  destruct (getNodeText_total description (em +:+ "unpack") Hn) as [text Hunpack].
  exists namev, versionv, text. split; [done|].
  unfold parseInstallRdf_then.
  rewrite Hem; simpl. rewrite Hrdf; simpl. rewrite Hroot; simpl. rewrite Hds; simpl.
  rewrite Hd; simpl. rewrite Hid; simpl. rewrite Hname; simpl.
  rewrite Hversion; simpl. rewrite Hunpack; simpl. rewrite Ht. reflexivity.
Qed.

(** In a legacy manifest whose description node is found and carries an
    add-on id, the parser resolves.  When the unpack element is stored as the
    string [s] (an element without attributes), [unpack] is the boolean
    [s.toLowerCase() === 'true']: it is [true] exactly when [s] is the word
    true in some mix of upper and lower case, and [false] for every other
    text.  Without the element it is [false]. *)
Theorem legacy_unpack (addonPath : string) (doc : jsval) (em rdf : string)
    (rdfRoot descriptions description idv : jsval) :
  getNamespaceId addonPath doc EM_NS = Resolved em →
  getNamespaceId addonPath doc RDF_NS = Resolved rdf →
  get doc (rdf +:+ "RDF") = Resolved rdfRoot →
  get rdfRoot (rdf +:+ "Description") = Resolved descriptions →
  get descriptions "0" = Resolved description →
  getNodeText description (em +:+ "id") = Resolved idv → truthy idv = true →
  ∃ details, parseInstallRdf_then addonPath doc = Resolved details ∧
    (∀ s more,
       lookup_own description (em +:+ "unpack") = Some (JArr (JStr s :: more)) →
       unpack details = JBool (String.eqb (toLowerCase s) "true") ∧
       (unpack details = JBool true ↔ spelled_true s) ∧
       (¬ spelled_true s → unpack details = JBool false)) ∧
    (lookup_own description (em +:+ "unpack") = None →
       unpack details = JBool false).
Proof.
  intros Hem Hrdf Hroot Hds Hd Hid Ht.
  destruct (parseInstallRdf_then_located _ _ _ _ _ _ _ _ Hem Hrdf Hroot Hds Hd Hid Ht)
    as (namev & versionv & text & Htext & ->).
  eexists. split; [done|]. simpl. split.
  - intros s more Hl. rewrite (getNodeText_text _ _ _ _ Hl) in Htext.
    injection Htext as <-.
    assert (unpack_of (JStr s) = JBool (String.eqb (toLowerCase s) "true")) as ->.
    { by destruct s. }
    rewrite <- toLowerCase_true.
    split_and!; [done| |].
    + destruct (String.eqb_spec (toLowerCase s) "true"); naive_solver.
    + intros Hs. by destruct (String.eqb_spec (toLowerCase s) "true").
  - intros Hl.
    rewrite (getNodeText_absent _ _ (getNodeText_resolved_not_nullish _ _ _ Hid) Hl)
      in Htext.
    by injection Htext as <-.
Qed.

(** An unpack element stored as the empty string (empty text, no
    attributes) gives [unpack] the boolean [false], as a missing unpack
    element does. *)
Theorem legacy_unpack_empty (addonPath : string) (doc : jsval) (em rdf : string)
    (rdfRoot descriptions description idv : jsval) :
  getNamespaceId addonPath doc EM_NS = Resolved em →
  getNamespaceId addonPath doc RDF_NS = Resolved rdf →
  get doc (rdf +:+ "RDF") = Resolved rdfRoot →
  get rdfRoot (rdf +:+ "Description") = Resolved descriptions →
  get descriptions "0" = Resolved description →
  getNodeText description (em +:+ "id") = Resolved idv → truthy idv = true →
  (∃ more, lookup_own description (em +:+ "unpack") = Some (JArr (JStr "" :: more))) ∨
  lookup_own description (em +:+ "unpack") = None →
  ∃ details, parseInstallRdf_then addonPath doc = Resolved details ∧
    unpack details = JBool false.
Proof.
  intros Hem Hrdf Hroot Hds Hd Hid Ht Hl.
  destruct (parseInstallRdf_then_located _ _ _ _ _ _ _ _ Hem Hrdf Hroot Hds Hd Hid Ht)
    as (namev & versionv & text & Htext & ->).
  eexists. split; [done|]. simpl.
  destruct Hl as [[more Hl]|Hl].
  - rewrite (getNodeText_text _ _ _ _ Hl) in Htext. by injection Htext as <-.
  - rewrite (getNodeText_absent _ _ (getNodeText_resolved_not_nullish _ _ _ Hid) Hl)
      in Htext.
    by injection Htext as <-.
Qed.

(** C7. The sample manifest with
    [<em:unpack xml:lang='en'>false</em:unpack>] for its unpack element.  The
    text of the element is not the word true, and yet [unpack] is not
    [false]: getNodeText hands over the object that stands for the element,
    [typeof] of it is not ['string'], and the parser resolves with that
    object, which is truthy and no boolean, as [unpack]. *)
Theorem legacy_unpack_attributed :
  ¬ spelled_true "false" ∧
  getNodeText
    (JObj (Sample.rdf_children [Cases.attributed_element (Some "false")]))
    "em:unpack" = Resolved (Cases.attributed_element (Some "false")) ∧
  parseInstallRdf_then "/ext/legacy.xpi"
    (Sample.rdf_doc_of [Cases.attributed_element (Some "false")]) =
    Resolved {| id := JStr "legacy@example.com"; name := JStr "Legacy";
                version := JStr "1.0";
                unpack := Cases.attributed_element (Some "false") |} ∧
  Cases.attributed_element (Some "false") ≠ JBool false ∧
  (∀ b, Cases.attributed_element (Some "false") ≠ JBool b) ∧
  truthy (Cases.attributed_element (Some "false")) = true.
Proof.
  split_and!; try reflexivity; try discriminate.
  intros (c1 & c2 & c3 & c4 & Heq & _). discriminate Heq.
Qed.

(** C10. The sample manifest with [<em:unpack xml:lang='en'/>] for its
    unpack element.  The element is present and has no text, and yet [unpack]
    is not the boolean [false] that the manifest without the element gives:
    the parser resolves with the object that stands for the element, which is
    truthy. *)
Theorem legacy_unpack_empty_attributed :
  lookup_own (Cases.attributed_element None) "_" = None ∧
  parseInstallRdf_then "/ext/legacy.xpi"
    (Sample.rdf_doc_of [Cases.attributed_element None]) =
    Resolved {| id := JStr "legacy@example.com"; name := JStr "Legacy";
                version := JStr "1.0"; unpack := Cases.attributed_element None |} ∧
  parseInstallRdf_then "/ext/legacy.xpi" (Sample.rdf_doc_of []) =
    Resolved {| id := JStr "legacy@example.com"; name := JStr "Legacy";
                version := JStr "1.0"; unpack := JBool false |} ∧
  Cases.attributed_element None ≠ JBool false ∧
  truthy (Cases.attributed_element None) = true.
Proof. split_and!; try reflexivity; discriminate. Qed.

(** A description node that is missing makes the callback throw a TypeError,
    not an AddonFormatError. *)
Lemma parseInstallRdf_then_no_description addonPath doc em rdf rdfRoot :
  getNamespaceId addonPath doc EM_NS = Resolved em →
  getNamespaceId addonPath doc RDF_NS = Resolved rdf →
  get doc (rdf +:+ "RDF") = Resolved rdfRoot →
  lookup_own rdfRoot (rdf +:+ "Description") = None →
  parseInstallRdf_then addonPath doc = Rejected TypeError.
Proof.
  intros Hem Hrdf Hroot Hl. unfold parseInstallRdf_then.
  rewrite Hem; simpl. rewrite Hrdf; simpl. rewrite Hroot; simpl.
  destruct (nullish rdfRoot) eqn:Hn.
  - by destruct rdfRoot.
  - by rewrite (get_not_nullish _ _ Hn), Hl.
Qed.

(** ** The modern manifest parser *)

Lemma lookup_own_falsy v k : truthy v = false → lookup_own v k = None.
Proof.
  destruct v as [| |b|x|s|items|props]; try done.
  destruct s; [|done]. intros _. simpl. by destruct (index_of_key k).
Qed.

Lemma bind_Resolved {A B} (a : A) (f : A → outcome B) : Resolved a ≫= f = f a.
Proof. done. Qed.

Lemma parseManifestJson_object addonPath props :
  parseManifestJson addonPath (JObj props) =
  match lookup_path (JObj props) ["applications"; "gecko"; "id"] with
  | Some v =>
      if truthy v
      then Resolved {| id := v;
                       name := default JUndefined (assoc "name" props);
                       version := default JUndefined (assoc "version" props);
                       unpack := JBool false |}
      else Rejected (AddonFormatError ("Could not find add-on ID for " +:+ addonPath))
  | None => Rejected (AddonFormatError ("Could not find add-on ID for " +:+ addonPath))
  end.
Proof.
  unfold lookup_path, parseManifestJson.
  cbn [foldl get lookup_own]. rewrite !bind_Resolved.
  change (Some (JObj props) ≫= λ v', lookup_own v' "applications")
    with (assoc "applications" props).
  destruct (assoc "applications" props) as [applications|]; [|done].
  cbn [default from_option Datatypes.id mbind option_bind].
  destruct (truthy applications) eqn:Ha.
  2:{ rewrite (lookup_own_falsy _ _ Ha).
      cbv beta iota delta [mbind outcome_bind]. by repeat (rewrite Ha; cbv beta iota). }
  rewrite !(get_not_nullish _ _ (truthy_not_nullish _ Ha)).
  cbv beta iota delta [mbind outcome_bind].
  destruct (lookup_own applications "gecko") as [gecko|]; [|done].
  cbn [default from_option Datatypes.id mbind option_bind].
  destruct (truthy gecko) eqn:Hg.
  2:{ rewrite (lookup_own_falsy _ _ Hg).
      cbv beta iota delta [mbind outcome_bind]. by repeat (rewrite Hg; cbv beta iota). }
  rewrite !(get_not_nullish _ _ (truthy_not_nullish _ Hg)).
  cbv beta iota delta [mbind outcome_bind].
  destruct (lookup_own gecko "id") as [idv|]; [|done].
  cbn [default from_option Datatypes.id]. by destruct (truthy idv).
Qed.

(** C5, as the code has it.  For a manifest object: when a segment of
    [applications.gecko.id] is absent, or the id is there but falsy (the empty
    string, for one), the parser throws an AddonFormatError; when the id is
    there and truthy it is the [id] of the details as it stands, next to the
    [name] and [version] of the manifest, and [unpack] is [false]. *)
Theorem parseManifestJson_id (addonPath : string) (props : list (string * jsval)) :
  (lookup_path (JObj props) ["applications"; "gecko"; "id"] = None →
     parseManifestJson addonPath (JObj props) =
       Rejected (AddonFormatError ("Could not find add-on ID for " +:+ addonPath))) ∧
  (∀ v, lookup_path (JObj props) ["applications"; "gecko"; "id"] = Some v →
     truthy v = false →
     parseManifestJson addonPath (JObj props) =
       Rejected (AddonFormatError ("Could not find add-on ID for " +:+ addonPath))) ∧
  (∀ v, lookup_path (JObj props) ["applications"; "gecko"; "id"] = Some v →
     truthy v = true →
     parseManifestJson addonPath (JObj props) =
       Resolved {| id := v;
                   name := default JUndefined (assoc "name" props);
                   version := default JUndefined (assoc "version" props);
                   unpack := JBool false |}).
Proof.
  rewrite parseManifestJson_object. split_and!.
  - by intros ->.
  - by intros v -> ->.
  - by intros v -> ->.
Qed.

(** ** The installer *)

Section installer.
Context {W : Type} `{!Collaborators W}.

(** What install does with the details that getDetails resolved to. *)
Lemma install_resolved extension dir (w w1 : W) details i :
  getDetails extension w = (Resolved details, w1) → id details = JStr i →
  install extension dir w =
  (if String.eqb (slice_last 4 extension) ".xpi" then
     if negb (truthy (unpack details)) then
       _ ← await (io_copy extension (path_join dir i +:+ ".xpi")); resolve (JStr i)
     else
       _ ← await (zip_unzip extension (path_join dir i)); resolve (JStr i)
   else
     _ ← await (io_copyDir extension (path_join dir i)); resolve (JStr i)) w1.
Proof.
  intros Hg Hi. unfold install.
  rewrite (then_resolved _ _ _ _ _ Hg), Hi. by rewrite settle_then.
Qed.

(** A directory whose path does not end in [.xpi] is copied as a tree. *)
Lemma install_plain_directory extension dir (w w1 w2 w3 : W) stats details i :
  io_stat extension w = (inr stats, w1) → isDirectory stats = true →
  slice_last 4 extension ≠ ".xpi" →
  parseDirectory extension extension w1 = (Resolved details, w2) →
  id details = JStr i →
  io_copyDir extension (path_join dir i) w2 = (inr (), w3) →
  install extension dir w = (Resolved (JStr i), w3).
Proof.
  intros Hs Hd Hx Hp Hi Hc.
  assert (getDetails extension w = (Resolved details, w2)) as Hg.
  { by rewrite (getDetails_stat_resolved _ _ _ _ Hs), Hd. }
  rewrite (install_resolved _ dir _ _ _ _ Hg Hi).
  destruct (String.eqb_spec (slice_last 4 extension) ".xpi"); [done|].
  by await_resolves Hc.
Qed.

End installer.

(** ** The installer on the model of the filesystem *)

Section model_facts.
Import SpecIO.
Variable resolve_path : string → list string.
Variable zip_decode : string → option (list (string * string)).
Variable join : string → string → string.
Variable parse_xml : string → string + jsval.
Variable parse_json : string → string + jsval.
Variable utf8 : string → string.

Local Abbreviation model :=
  (collaborators resolve_path zip_decode join parse_xml parse_json utf8).

Lemma reads_then {A B : Type} (p : Promise (gmap (list string) entry) A)
    (f : A → Promise (gmap (list string) entry) B) :
  reads p → (∀ a, reads (f a)) → reads (p ≫= f).
Proof.
  intros Hp Hf fs. unfold mbind, Promise_bind, then_.
  specialize (Hp fs). destruct (p fs) as [[a|e] fs1]; simpl in *; subst; [apply Hf|done].
Qed.

Lemma reads_stat p : reads (await (stat resolve_path p)).
Proof.
  intros fs. unfold await, stat. by destruct (fs !! resolve_path p) as [[data|]|].
Qed.

Lemma reads_exists p : reads (await (exists_ resolve_path p)).
Proof. done. Qed.

Lemma reads_read p : reads (await (read resolve_path p)).
Proof.
  intros fs. unfold await, read. by destruct (fs !! resolve_path p) as [[data|]|].
Qed.

Lemma reads_load p : reads (await (load resolve_path zip_decode p)).
Proof.
  intros fs. unfold await, load, read.
  destruct (fs !! resolve_path p) as [[data|]|]; try done.
  by destruct (zip_decode data).
Qed.

Lemma reads_getFile archive entryName : reads (await (getFile archive entryName)).
Proof.
  intros fs. unfold await, getFile. by destruct (assoc entryName archive).
Qed.

Lemma reads_parseInstallRdf addonPath rdf :
  reads (parseInstallRdf (Collaborators0:=model) addonPath rdf).
Proof.
  unfold parseInstallRdf. apply reads_then; [|done].
  unfold parseXml. simpl. by destruct (parse_xml rdf).
Qed.

Lemma reads_parseJsonBuffer addonPath buf :
  reads (parseJsonBuffer (Collaborators0:=model) addonPath buf).
Proof. unfold parseJsonBuffer. simpl. by destruct (parse_json _). Qed.

Lemma reads_getDetails addonPath :
  reads (getDetails (Collaborators0:=model) addonPath).
Proof.
  unfold getDetails. apply reads_then; [apply reads_stat|]. intros stats.
  destruct (isDirectory stats).
  - unfold parseDirectory. apply reads_then; [apply reads_exists|]. intros [].
    + apply reads_then; [apply reads_read|]. intros buf. apply reads_parseInstallRdf.
    + apply reads_then; [apply reads_exists|]. intros []; [|done].
      apply reads_then; [apply reads_read|]. intros buf. apply reads_parseJsonBuffer.
  - destruct (String.eqb _ _); [|done].
    unfold parseXpiFile. apply reads_then; [apply reads_load|]. intros archive.
    simpl. destruct (has archive "install.rdf").
    + apply reads_then; [apply reads_getFile|]. intros buf. apply reads_parseInstallRdf.
    + destruct (has archive "manifest.json"); [|done].
      apply reads_then; [apply reads_getFile|]. intros buf. apply reads_parseJsonBuffer.
Qed.

(** C1. On the model of the filesystem: for a regular file whose path ends
    in [.xpi] and whose details have [unpack = false], install resolves to the
    id, and the filesystem it leaves is the one it found with one file
    written, at [join dir id] followed by [.xpi], holding the bytes of the
    source; every other path is as it was. *)
Theorem install_packed_archive (extension dir : string)
    (fs : gmap (list string) entry) (details : AddonDetails) (i data : string) :
  slice_last 4 extension = ".xpi" →
  fs !! resolve_path extension = Some (File data) →
  (getDetails (Collaborators0:=model) extension fs).1 = Resolved details →
  unpack details = JBool false →
  id details = JStr i →
  fs !! resolve_path (join dir i +:+ ".xpi") ≠ Some Directory →
  install (Collaborators0:=model) extension dir fs =
    (Resolved (JStr i), <[resolve_path (join dir i +:+ ".xpi") := File data]> fs) ∧
  (install (Collaborators0:=model) extension dir fs).2
    !! resolve_path (join dir i +:+ ".xpi") = Some (File data) ∧
  (∀ q, q ≠ resolve_path (join dir i +:+ ".xpi") →
     (install (Collaborators0:=model) extension dir fs).2 !! q = fs !! q).
Proof.
  intros Hx Hsrc Hd Hu Hi Hdst.
  assert (install (Collaborators0:=model) extension dir fs =
          (Resolved (JStr i), <[resolve_path (join dir i +:+ ".xpi") := File data]> fs))
    as Hinstall.
  { assert (getDetails (Collaborators0:=model) extension fs = (Resolved details, fs))
      as Hg.
    { pose proof (reads_getDetails extension fs) as Hr.
      destruct (getDetails extension fs) as [r fs1]. simpl in *. by subst. }
    rewrite (install_resolved _ dir _ _ _ _ Hg Hi), Hx, Hu. simpl.
    unfold mbind, Promise_bind, then_, await, copy. rewrite Hsrc.
    destruct (fs !! resolve_path (join dir i +:+ ".xpi")) as [[data'|]|]; done. }
  rewrite Hinstall. simpl. split_and!; [done| |].
  - apply lookup_insert_eq.
  - intros q Hq. by apply lookup_insert_ne.
Qed.

End model_facts.

(** C2, on a directory whose name ends in [.xpi].  getDetails sees the
    directory and reads its manifest, as for any directory; install then looks
    at the suffix alone, hands the directory to [io.copy] as if it were an
    archive, and never calls [io.copyDir]: on the model the promise is
    rejected and nothing is copied. *)
Theorem install_directory_named_xpi :
  SpecIO.stat Sample.resolve_path "/ext/unpacked.xpi" Sample.disk =
    (inr {| isDirectory := true |}, Sample.disk) ∧
  getDetails (Collaborators0:=Sample.io) "/ext/unpacked.xpi" Sample.disk =
    (Resolved {| id := JStr "modern@example.com"; name := JStr "Modern";
                 version := JStr "2.0"; unpack := JBool false |}, Sample.disk) ∧
  install (Collaborators0:=Sample.io) "/ext/unpacked.xpi" "/profile" Sample.disk =
    (_ ← await (io_copy (Collaborators:=Sample.io) "/ext/unpacked.xpi"
                  "/profile/modern@example.com.xpi");
     resolve (JStr "modern@example.com")) Sample.disk ∧
  install (Collaborators0:=Sample.io) "/ext/unpacked.xpi" "/profile" Sample.disk =
    (Rejected (IoError "EISDIR: /ext/unpacked.xpi"), Sample.disk) ∧
  Sample.disk !! ["profile"; "modern@example.com"] = None.
Proof. split_and!; reflexivity. Qed.

(** ** The theorems on the sample add-ons *)

(** The packed modern add-on is copied into the profile under its id. *)
Lemma install_packed_archive_witness :
  install (Collaborators0:=Sample.io) "/ext/modern.xpi" "/profile" Sample.disk =
    (Resolved (JStr "modern@example.com"),
     <[["profile"; "modern@example.com.xpi"] := SpecIO.File "PK-modern"]> Sample.disk).
Proof.
  refine (proj1 (install_packed_archive
    Sample.resolve_path Sample.zip_decode Sample.join Sample.parse_xml
    Sample.parse_json (λ s, s) "/ext/modern.xpi" "/profile" Sample.disk
    {| id := JStr "modern@example.com"; name := JStr "Modern";
       version := JStr "2.0"; unpack := JBool false |}
    "modern@example.com" "PK-modern" _ _ _ _ _ _)); try reflexivity.
  intros Hd. discriminate Hd.
Defined.

(** The three kinds of directory: both manifests, the modern one only, none. *)
Lemma parseDirectory_dispatch_witness :
  parseDirectory (Collaborators0:=Sample.io) "/ext/both" "/ext/both" Sample.disk =
    parseInstallRdf (Collaborators0:=Sample.io) "/ext/both" Sample.rdf_text Sample.disk ∧
  parseDirectory (Collaborators0:=Sample.io) "/ext/webext" "/ext/webext" Sample.disk =
    (parseManifestJson "/ext/webext" Sample.json_doc, Sample.disk) ∧
  parseDirectory (Collaborators0:=Sample.io) "/ext/empty" "/ext/empty" Sample.disk =
    (Rejected (AddonFormatError
                 "Couldn't find install.rdf or manifest.json in /ext/empty"),
     Sample.disk).
Proof.
  split_and!.
  - apply (proj1 (parseDirectory_dispatch (Collaborators0:=Sample.io)
                    "/ext/both" "/ext/both" Sample.disk) Sample.disk Sample.disk);
      reflexivity.
  - apply (proj1 (proj2 (parseDirectory_dispatch (Collaborators0:=Sample.io)
                           "/ext/webext" "/ext/webext" Sample.disk))
             Sample.disk Sample.disk Sample.disk Sample.json_text);
      reflexivity.
  - apply (proj2 (proj2 (parseDirectory_dispatch (Collaborators0:=Sample.io)
                           "/ext/empty" "/ext/empty" Sample.disk))
             Sample.disk Sample.disk);
      reflexivity.
Defined.

(** A text that the XML parser refuses. *)
Lemma parseInstallRdf_xml_error_witness :
  parseInstallRdf (Collaborators0:=Sample.io) "/ext/both" "<RDF" Sample.disk =
    (Rejected (XmlError "Unclosed root tag"), Sample.disk).
Proof.
  apply (parseInstallRdf_xml_error (Collaborators0:=Sample.io)
           "/ext/both" "<RDF" "Unclosed root tag" Sample.disk).
  reflexivity.
Defined.

(** C4 does not hold as it is worded: the rejection for a text that the XML
    parser refuses is the error of the XML parser, and the rejection for a
    document without a Description node is a TypeError; neither is an
    AddonFormatError.  Nor is the rejection for the document [null], which is
    what xml2js hands over, without an error, for an empty text:
    [Object.keys(null)] throws a TypeError. *)
Lemma legacy_parser_other_errors :
  (xml_parseString (Collaborators:=Sample.io) "<RDF" = inl "Unclosed root tag" ∧
   (parseInstallRdf (Collaborators0:=Sample.io) "/ext/both" "<RDF" Sample.disk).1 =
     Rejected (XmlError "Unclosed root tag") ∧
   is_AddonFormatError
     (parseInstallRdf (Collaborators0:=Sample.io) "/ext/both" "<RDF" Sample.disk).1
     = false) ∧
  (xml_parseString (Collaborators:=Sample.io) Sample.rdf_text_no_description =
     inr Sample.rdf_no_description ∧
   (rdfRoot ← get Sample.rdf_no_description "RDF"; get rdfRoot "Description")
     = Resolved JUndefined ∧
   (parseInstallRdf (Collaborators0:=Sample.io) "/ext/both"
      Sample.rdf_text_no_description Sample.disk).1 = Rejected TypeError ∧
   is_AddonFormatError
     (parseInstallRdf (Collaborators0:=Sample.io) "/ext/both"
        Sample.rdf_text_no_description Sample.disk).1 = false) ∧
  (parseInstallRdf_then "/ext/both" JNull = Rejected TypeError ∧
   is_AddonFormatError (parseInstallRdf_then "/ext/both" JNull) = false).
Proof. split_and!; reflexivity. Qed.

(** The sample manifest.json, and the same manifest without its id. *)
Lemma parseManifestJson_id_witness :
  parseManifestJson "/ext/modern.xpi" Sample.json_doc =
    Resolved {| id := JStr "modern@example.com"; name := JStr "Modern";
                version := JStr "2.0"; unpack := JBool false |} ∧
  parseManifestJson "/ext/modern.xpi"
    (JObj [("name", JStr "Modern"); ("applications", JObj [("gecko", JObj [])])]) =
    Rejected (AddonFormatError "Could not find add-on ID for /ext/modern.xpi").
Proof.
  split.
  - apply (proj2 (proj2 (parseManifestJson_id "/ext/modern.xpi"
                           (Sample.json_props (JStr "modern@example.com"))))
             (JStr "modern@example.com")); reflexivity.
  - apply (proj1 (parseManifestJson_id "/ext/modern.xpi"
                    [("name", JStr "Modern");
                     ("applications", JObj [("gecko", JObj [])])])).
    reflexivity.
Defined.

(** C5 does not hold as it is worded: an id that is present but empty is not
    copied into the details; the parser throws. *)
Lemma modern_empty_id_rejected :
  lookup_path (Sample.json_of (JStr "")) ["applications"; "gecko"; "id"] =
    Some (JStr "") ∧
  parseManifestJson "/ext/modern.xpi" (Sample.json_of (JStr "")) =
    Rejected (AddonFormatError "Could not find add-on ID for /ext/modern.xpi").
Proof. split; reflexivity. Qed.


(** The sample manifest says [TRUE]. *)
Lemma legacy_unpack_witness :
  ∃ details, parseInstallRdf_then "/ext/both" Sample.rdf_doc = Resolved details ∧
    unpack details = JBool true.
Proof.
  destruct (legacy_unpack "/ext/both" Sample.rdf_doc "em:" ""
              (Sample.rdf_root [JStr "TRUE"])
              (JArr [Sample.rdf_description [JStr "TRUE"]])
              (Sample.rdf_description [JStr "TRUE"])
              (JStr "legacy@example.com")
              eq_refl eq_refl eq_refl eq_refl eq_refl eq_refl eq_refl)
    as (details & Hparsed & Htext & _).
  exists details. split; [exact Hparsed|].
  exact (proj1 (Htext "TRUE" [] eq_refl)).
Defined.

(** A manifest whose unpack element is empty, [<em:unpack></em:unpack>]. *)
Lemma legacy_unpack_empty_witness :
  ∃ details,
    parseInstallRdf_then "/ext/both" (Sample.rdf_doc_of [JStr ""]) = Resolved details ∧
    unpack details = JBool false.
Proof.
  apply (legacy_unpack_empty "/ext/both" (Sample.rdf_doc_of [JStr ""]) "em:" ""
           (Sample.rdf_root [JStr ""])
           (JArr [Sample.rdf_description [JStr ""]])
           (Sample.rdf_description [JStr ""])
           (JStr "legacy@example.com")
           eq_refl eq_refl eq_refl eq_refl eq_refl eq_refl eq_refl).
  left. exists []. reflexivity.
Defined.

(** A document with no root key, and one with two. *)
Lemma legacy_root_count_witness :
  parseInstallRdf_then "/ext/both" (JObj []) =
    Rejected (AddonFormatError "Malformed manifest for add-on /ext/both") ∧
  getNamespaceId "/ext/both"
    (JObj [("RDF", Sample.rdf_root []); ("Extra", JStr "")]) EM_NS =
    Rejected (AddonFormatError "Malformed manifest for add-on /ext/both").
Proof.
  split.
  - apply (legacy_root_count (Collaborators0:=Sample.io) "/ext/both" (JObj []) []);
      [reflexivity|]. intros Hn. discriminate Hn.
  - apply (legacy_root_count (Collaborators0:=Sample.io) "/ext/both"
             (JObj [("RDF", Sample.rdf_root []); ("Extra", JStr "")])
             ["RDF"; "Extra"]); [reflexivity|]. intros Hn. discriminate Hn.
Defined.

(** A path that does not exist, though it ends in [.xpi], and a file that is
    neither a directory nor an archive. *)
Lemma install_stat_error_witness :
  install (Collaborators0:=Sample.io) "/ext/none.xpi" "/profile" Sample.disk =
    (Rejected (IoError "ENOENT: /ext/none.xpi"), Sample.disk) ∧
  install (Collaborators0:=Sample.io) "/ext/notes.txt" "/profile" Sample.disk =
    (Rejected (Error "Add-on path is not an xpi or a directory: /ext/notes.txt"),
     Sample.disk).
Proof.
  split.
  - apply (proj1 (install_stat_error (Collaborators0:=Sample.io)
                    "/ext/none.xpi" "/profile" Sample.disk)).
    reflexivity.
  - apply (proj2 (install_stat_error (Collaborators0:=Sample.io)
                    "/ext/notes.txt" "/profile" Sample.disk)).
    exists {| isDirectory := false |}. split_and!; try reflexivity.
    intros Hx. discriminate Hx.
Defined.

(** * Further properties *)

Lemma post_bind {A B : Type} (P : B → Prop) (o : outcome A) (f : A → outcome B) :
  (∀ a, o = Resolved a → post P (f a)) → post P (o ≫= f).
Proof. destruct o as [a|e]; simpl; auto. Qed.

Lemma bind_resolved_inv {A B : Type} (o : outcome A) (f : A → outcome B) b :
  o ≫= f = Resolved b → ∃ a, o = Resolved a ∧ f a = Resolved b.
Proof. destruct o as [a|e]; [eauto|done]. Qed.

Lemma getNodeText_text_like node k r :
  getNodeText node k = Resolved r → text_like r.
Proof.
  unfold getNodeText. intros (v & _ & Hr)%bind_resolved_inv.
  apply bind_resolved_inv in Hr as (r' & _ & [= <-]). unfold text_like.
  destruct (truthy r') eqn:Ht; [by left|by right].
Qed.

(** X15. getNodeText throws a TypeError on a node that is [undefined] or
    [null]; on any other node it returns, and what it returns is a truthy
    value or the empty string: never [undefined], [null], [false] or [0]. *)
Theorem getNodeText_result (node : jsval) (k : string) :
  (nullish node = true → getNodeText node k = Rejected TypeError) ∧
  (nullish node = false →
     ∃ r, getNodeText node k = Resolved r ∧ text_like r) ∧
  (∀ r, getNodeText node k = Resolved r → text_like r).
Proof.
  split_and!; [|intros Hn|apply getNodeText_text_like].
  - by destruct node.
  - destruct (getNodeText_total node k Hn) as [r Hr].
    exists r. split; [done|]. by apply getNodeText_text_like with node k.
Qed.

(** No piece of a split holds the separator. *)
Lemma js_split_pieces c s : Forall (λ t, contains_char c t = false) (js_split c s).
Proof.
  induction s as [|a s IH]; simpl; [by repeat constructor|].
  destruct (Ascii.eqb a c) eqn:Ha; [by constructor|].
  destruct (js_split c s) as [|h t].
  - repeat constructor. simpl. by rewrite Ha.
  - inversion IH as [|? ? Hh Ht]; subst. constructor; [|done]. simpl. by rewrite Ha.
Qed.

Lemma prefix_of_attribute_shape ns :
  prefix_of_attribute ns = "" ∨
  ∃ x, prefix_of_attribute ns = x +:+ ":" ∧ contains_char ":" x = false.
Proof.
  unfold prefix_of_attribute. destruct (contains_char ":" ns); [|by left].
  right. eexists. split; [done|].
  pose proof (js_split_pieces ":" ns) as Hp.
  destruct (js_split ":" ns) as [|h [|h' t]]; try done.
  simpl. inversion Hp as [|? ? ? Ht]; subst. by inversion Ht.
Qed.

Lemma getNamespaceId_some_shape namespaces url nss p :
  getNamespaceId_some namespaces url nss = Resolved p →
  p = "" ∨ ∃ x, p = x +:+ ":" ∧ contains_char ":" x = false.
Proof.
  induction nss as [|ns rest IH]; simpl; [intros [= <-]; by left|].
  intros (v & _ & Hr)%bind_resolved_inv.
  destruct (strict_eq_str v url); simpl in Hr; [|by apply IH].
  pose proof (prefix_of_attribute_shape ns) as Hs. unfold prefix_of_attribute in Hs.
  destruct (contains_char ":" ns); injection Hr as <-; [done|by left].
Qed.

(** X13. Whatever the document, a prefix that the namespace resolver
    returns is empty or is a name without a colon followed by one colon. *)
Theorem getNamespaceId_shape (addonPath : string) (doc : jsval) (url p : string) :
  getNamespaceId addonPath doc url = Resolved p →
  p = "" ∨ ∃ x, p = x +:+ ":" ∧ contains_char ":" x = false.
Proof.
  unfold getNamespaceId. intros (keys & _ & Hr)%bind_resolved_inv.
  destruct keys as [|key0 [|]]; try done.
  apply bind_resolved_inv in Hr as (root & _ & Hr).
  apply bind_resolved_inv in Hr as (namespaces & _ & Hr).
  apply bind_resolved_inv in Hr as (nss & _ & Hr).
  by apply getNamespaceId_some_shape in Hr.
Qed.

Lemma parseInstallRdf_then_falsy_id addonPath doc em rdf rdfRoot descriptions
    description idv :
  getNamespaceId addonPath doc EM_NS = Resolved em →
  getNamespaceId addonPath doc RDF_NS = Resolved rdf →
  get doc (rdf +:+ "RDF") = Resolved rdfRoot →
  get rdfRoot (rdf +:+ "Description") = Resolved descriptions →
  get descriptions "0" = Resolved description →
  getNodeText description (em +:+ "id") = Resolved idv → truthy idv = false →
  parseInstallRdf_then addonPath doc =
    Rejected (AddonFormatError ("Could not find add-on ID for " +:+ addonPath)).
Proof.
  intros Hem Hrdf Hroot Hds Hd Hid Ht.
  pose proof (getNodeText_resolved_not_nullish _ _ _ Hid) as Hn.
  destruct (getNodeText_total description (em +:+ "name") Hn) as [namev Hname].
  destruct (getNodeText_total description (em +:+ "version") Hn) as [versionv Hversion].
  destruct (getNodeText_total description (em +:+ "unpack") Hn) as [text Hunpack].
  unfold parseInstallRdf_then.
  rewrite Hem; simpl. rewrite Hrdf; simpl. rewrite Hroot; simpl. rewrite Hds; simpl.
  rewrite Hd; simpl. rewrite Hid; simpl. rewrite Hname; simpl.
  rewrite Hversion; simpl. rewrite Hunpack; simpl. rewrite Ht. reflexivity.
Qed.

(** X6. In a legacy manifest whose description node is found, the parser
    throws the AddonFormatError that names the add-on path exactly when
    getNodeText hands over a falsy id, and resolves with what getNodeText
    hands over as id otherwise.  So a missing id element, and an id element
    stored as the empty string (empty text, no attributes), make it throw; an
    id element stored as an object (an element with attributes, whatever its
    text, also when it has none) does not: the parser resolves with that
    object as id. *)
Theorem legacy_missing_id (addonPath : string) (doc : jsval) (em rdf : string)
    (rdfRoot descriptions description : jsval) :
  getNamespaceId addonPath doc EM_NS = Resolved em →
  getNamespaceId addonPath doc RDF_NS = Resolved rdf →
  get doc (rdf +:+ "RDF") = Resolved rdfRoot →
  get rdfRoot (rdf +:+ "Description") = Resolved descriptions →
  get descriptions "0" = Resolved description →
  nullish description = false →
  (∃ idv, getNodeText description (em +:+ "id") = Resolved idv ∧
     if truthy idv
     then ∃ details, parseInstallRdf_then addonPath doc = Resolved details ∧
            id details = idv
     else parseInstallRdf_then addonPath doc =
            Rejected (AddonFormatError ("Could not find add-on ID for " +:+ addonPath))) ∧
  (lookup_own description (em +:+ "id") = None ∨
   (∃ more, lookup_own description (em +:+ "id") = Some (JArr (JStr "" :: more))) →
   parseInstallRdf_then addonPath doc =
     Rejected (AddonFormatError ("Could not find add-on ID for " +:+ addonPath))) ∧
  (∀ props more,
     lookup_own description (em +:+ "id") = Some (JArr (JObj props :: more)) →
     ∃ details, parseInstallRdf_then addonPath doc = Resolved details ∧
       id details = JObj props).
Proof.
  intros Hem Hrdf Hroot Hds Hd Hn.
  assert (∀ idv, getNodeText description (em +:+ "id") = Resolved idv →
            truthy idv = true →
            ∃ details, parseInstallRdf_then addonPath doc = Resolved details ∧
              id details = idv) as Hres.
  { intros idv Hid Ht.
    destruct (parseInstallRdf_then_located _ _ _ _ _ _ _ _ Hem Hrdf Hroot Hds Hd Hid Ht)
      as (namev & versionv & text & _ & ->).
    by eexists. }
  split_and!.
  - destruct (getNodeText_total description (em +:+ "id") Hn) as [idv Hid].
    exists idv. split; [done|].
    destruct (truthy idv) eqn:Ht.
    + by apply Hres.
    + by apply (parseInstallRdf_then_falsy_id _ _ _ _ _ _ _ idv Hem Hrdf Hroot Hds Hd).
  - intros Hid.
    apply (parseInstallRdf_then_falsy_id _ _ _ _ _ _ _ (JStr "") Hem Hrdf Hroot Hds Hd);
      [|done].
    destruct Hid as [Hid|[more Hid]].
    + by apply getNodeText_absent.
    + by apply getNodeText_text with more.
  - intros props more Hl.
    destruct (getNodeText_element _ _ _ _ Hl) as [Hg _].
    by apply Hres.
Qed.

Lemma parseInstallRdf_then_resolved addonPath doc (details : AddonDetails) :
  parseInstallRdf_then addonPath doc = Resolved details →
  truthy (id details) = true ∧
  text_like (name details) ∧ text_like (version details) ∧
  (∀ s, unpack details ≠ JStr s) ∧
  ((∃ b, unpack details = JBool b) ∨ truthy (unpack details) = true).
Proof.
  unfold parseInstallRdf_then.
  intros (em & _ & H)%bind_resolved_inv.
  apply bind_resolved_inv in H as (rdf & _ & H).
  apply bind_resolved_inv in H as (rdfRoot & _ & H).
  apply bind_resolved_inv in H as (descriptions & _ & H).
  apply bind_resolved_inv in H as (description & _ & H).
  apply bind_resolved_inv in H as (id0 & Hid & H).
  apply bind_resolved_inv in H as (name0 & Hname & H).
  apply bind_resolved_inv in H as (version0 & Hversion & H).
  apply bind_resolved_inv in H as (text & Htext & H).
  simpl in H. destruct (truthy id0) eqn:Ht; simpl in H; [|done].
  injection H as <-. simpl.
  apply getNodeText_text_like in Hname, Hversion.
  split_and!; try done.
  - intros s. destruct (truthy text) eqn:Htt; [|done]. by destruct text.
  - destruct (truthy text) eqn:Htt; [|left; by eexists].
    destruct text; try (right; exact Htt); left; by eexists.
Qed.

(** X8. Whenever the callback of the legacy parser returns details, the id
    is truthy, name and version are each truthy or the empty string, and
    unpack is never a string: it is a boolean or a truthy value that is not a
    string. *)
Theorem legacy_details_invariant (addonPath : string) (doc : jsval)
    (details : AddonDetails) :
  parseInstallRdf_then addonPath doc = Resolved details →
  truthy (id details) = true ∧
  text_like (name details) ∧ text_like (version details) ∧
  (∀ s, unpack details ≠ JStr s) ∧
  ((∃ b, unpack details = JBool b) ∨ truthy (unpack details) = true).
Proof. apply parseInstallRdf_then_resolved. Qed.

Lemma parseManifestJson_value addonPath json :
  nullish json = false →
  parseManifestJson addonPath json =
  match lookup_path json ["applications"; "gecko"; "id"] with
  | Some v =>
      if truthy v
      then Resolved {| id := v;
                       name := default JUndefined (lookup_own json "name");
                       version := default JUndefined (lookup_own json "version");
                       unpack := JBool false |}
      else Rejected (AddonFormatError ("Could not find add-on ID for " +:+ addonPath))
  | None => Rejected (AddonFormatError ("Could not find add-on ID for " +:+ addonPath))
  end.
Proof.
  intros Hjson.
  assert (parseManifestJson addonPath json =
    (name0 ← get json "name";
     version0 ← get json "version";
     applications ← get json "applications";
     gecko ← (if truthy applications then get applications "gecko"
              else Resolved applications);
     found ← (if truthy gecko then g ← get applications "gecko"; get g "id"
              else Resolved gecko);
     if negb (truthy found)
     then Rejected (AddonFormatError ("Could not find add-on ID for " +:+ addonPath))
     else
       g ← get applications "gecko";
       id0 ← get g "id";
       Resolved {| id := id0; name := name0; version := version0;
                   unpack := JBool false |})) as ->.
  { by destruct json. }
  unfold lookup_path. cbn [foldl].
  rewrite !(get_not_nullish _ _ Hjson), !bind_Resolved.
  change (Some json ≫= λ v', lookup_own v' "applications")
    with (lookup_own json "applications").
  destruct (lookup_own json "applications") as [applications|]; [|done].
  cbn [default from_option Datatypes.id mbind option_bind].
  destruct (truthy applications) eqn:Ha.
  2:{ rewrite (lookup_own_falsy _ _ Ha).
      cbv beta iota delta [mbind outcome_bind]. by repeat (rewrite Ha; cbv beta iota). }
  rewrite !(get_not_nullish _ _ (truthy_not_nullish _ Ha)).
  cbv beta iota delta [mbind outcome_bind].
  destruct (lookup_own applications "gecko") as [gecko|]; [|done].
  cbn [default from_option Datatypes.id mbind option_bind].
  destruct (truthy gecko) eqn:Hg.
  2:{ rewrite (lookup_own_falsy _ _ Hg).
      cbv beta iota delta [mbind outcome_bind]. by repeat (rewrite Hg; cbv beta iota). }
  rewrite !(get_not_nullish _ _ (truthy_not_nullish _ Hg)).
  cbv beta iota delta [mbind outcome_bind].
  destruct (lookup_own gecko "id") as [idv|]; [|done].
  cbn [default from_option Datatypes.id]. by destruct (truthy idv).
Qed.

Lemma parseManifestJson_resolved addonPath json (details : AddonDetails) :
  parseManifestJson addonPath json = Resolved details →
  truthy (id details) = true ∧
  lookup_path json ["applications"; "gecko"; "id"] = Some (id details) ∧
  name details = default JUndefined (lookup_own json "name") ∧
  version details = default JUndefined (lookup_own json "version") ∧
  unpack details = JBool false.
Proof.
  destruct (nullish json) eqn:Hn; [by destruct json|].
  rewrite (parseManifestJson_value _ _ Hn).
  destruct (lookup_path json _) as [v|]; [|done].
  destruct (truthy v) eqn:Hv; [|done]. by intros [= <-].
Qed.

(** X9. Whenever the modern parser returns details, for any JSON value, the
    id is truthy and is the value found at [applications.gecko.id], name and
    version are the manifest's own ([undefined] when missing), and unpack is
    [false]. *)
Theorem modern_details_invariant (addonPath : string) (json : jsval)
    (details : AddonDetails) :
  parseManifestJson addonPath json = Resolved details →
  truthy (id details) = true ∧
  lookup_path json ["applications"; "gecko"; "id"] = Some (id details) ∧
  name details = default JUndefined (lookup_own json "name") ∧
  version details = default JUndefined (lookup_own json "version") ∧
  unpack details = JBool false.
Proof. apply parseManifestJson_resolved. Qed.

(** X14. A manifest.json whose value is not an object never gives details:
    [null] makes the destructuring parameter throw a TypeError, and an array,
    a string, a number or a boolean ends in the AddonFormatError for a
    missing id. *)
Theorem modern_not_an_object (addonPath : string) (json : jsval) :
  (∀ props, json ≠ JObj props) →
  parseManifestJson addonPath json =
    if nullish json then Rejected TypeError
    else Rejected (AddonFormatError ("Could not find add-on ID for " +:+ addonPath)).
Proof.
  intros Hobj. destruct (nullish json) eqn:Hn; [by destruct json|].
  rewrite (parseManifestJson_value _ _ Hn).
  assert (lookup_path json ["applications"; "gecko"; "id"] = None) as ->; [|done].
  destruct json as [| |b|x|s|items|props]; try done. by destruct (Hobj props).
Qed.

Lemma eqb_append_l p a b : String.eqb (p +:+ a) (p +:+ b) = String.eqb a b.
Proof.
  induction p as [|c p IH]; [reflexivity|].
  simpl. by rewrite Ascii.eqb_refl.
Qed.

Lemma eqb_dollar p l : l ≠ "" → String.eqb "$" l = false → String.eqb "$" (p +:+ l) = false.
Proof.
  intros Hl Hd. destruct p as [|c p]; [exact Hd|].
  apply String.eqb_neq. simpl. intros [= _ Hp]. by destruct p, l.
Qed.

Lemma xmlns_attr_inj e r : e ≠ r → String.eqb (xmlns_attr r) (xmlns_attr e) = false.
Proof.
  intros Hne. apply String.eqb_neq. intros Heq. apply Hne.
  destruct e as [x|], r as [y|]; simpl in Heq; by simplify_eq.
Qed.

Lemma prefix_of_attribute_xmlns p :
  prefix_ok p → prefix_of_attribute (xmlns_attr p) = tag_prefix p.
Proof.
  destruct p as [x|]; simpl; [|done]. intros Hx.
  by apply (prefix_of_attribute_prefixed "xmlns" x).
Qed.

Lemma manifest_keys e r : e ≠ r → keys_of (manifest_attrs e r) = [xmlns_attr r; xmlns_attr e].
Proof.
  intros Hne. simpl. rewrite filter_cons, filter_nil.
  rewrite decide_True; [done|].
  apply String.eqb_neq. by rewrite String.eqb_sym, xmlns_attr_inj.
Qed.

Lemma manifest_first_bound_em e r :
  e ≠ r → first_bound (manifest_attrs e r) EM_NS = Some (xmlns_attr e).
Proof.
  intros Hne. unfold first_bound. rewrite (manifest_keys _ _ Hne).
  unfold manifest_attrs, binds. simpl.
  by rewrite !String.eqb_refl, (xmlns_attr_inj _ _ Hne).
Qed.

Lemma manifest_first_bound_rdf e r :
  e ≠ r → first_bound (manifest_attrs e r) RDF_NS = Some (xmlns_attr r).
Proof.
  intros Hne. unfold first_bound. rewrite (manifest_keys _ _ Hne).
  unfold manifest_attrs, binds. simpl. by rewrite !String.eqb_refl.
Qed.

Lemma manifest_namespaces addonPath e r idv namev versionv unpackv :
  prefix_ok e → prefix_ok r → e ≠ r →
  getNamespaceId addonPath (manifest_doc e r idv namev versionv unpackv) EM_NS =
    Resolved (tag_prefix e) ∧
  getNamespaceId addonPath (manifest_doc e r idv namev versionv unpackv) RDF_NS =
    Resolved (tag_prefix r).
Proof.
  intros He Hr Hne. unfold manifest_doc. split.
  - rewrite (getNamespaceId_first_bound addonPath _ (tag_prefix r +:+ "RDF")
               (manifest_root e r idv namev versionv unpackv) (manifest_attrs e r));
      [|done|simpl; by rewrite String.eqb_refl|done].
    by rewrite (manifest_first_bound_em _ _ Hne); simpl; rewrite prefix_of_attribute_xmlns.
  - rewrite (getNamespaceId_first_bound addonPath _ (tag_prefix r +:+ "RDF")
               (manifest_root e r idv namev versionv unpackv) (manifest_attrs e r));
      [|done|simpl; by rewrite String.eqb_refl|done].
    by rewrite (manifest_first_bound_rdf _ _ Hne); simpl; rewrite prefix_of_attribute_xmlns.
Qed.

Lemma manifest_lookup e idv namev versionv unpackv :
  let d := manifest_description e idv namev versionv unpackv in
  lookup_own d (tag_prefix e +:+ "id") = Some (JArr [JStr idv]) ∧
  lookup_own d (tag_prefix e +:+ "name") = Some (JArr [JStr namev]) ∧
  lookup_own d (tag_prefix e +:+ "version") = Some (JArr [JStr versionv]) ∧
  lookup_own d (tag_prefix e +:+ "unpack") = (λ u, JArr [JStr u]) <$> unpackv.
Proof.
  unfold manifest_description. cbn [lookup_own app assoc].
  rewrite !eqb_dollar, !eqb_append_l, !String.eqb_refl by done.
  change ("id" =? "name") with false. change ("id" =? "version") with false.
  change ("name" =? "version") with false. change ("id" =? "unpack") with false.
  change ("name" =? "unpack") with false. change ("version" =? "unpack") with false.
  cbv iota. split_and!; try done.
  destruct unpackv as [u|]; cbn [assoc fmap option_fmap option_map]; [|done].
  by rewrite eqb_append_l, String.eqb_refl.
Qed.

(** X7. Round trip.  From the document of a manifest written with an id
    that is not empty, a name, a version and possibly an unpack text, under
    any two distinct namespace prefixes (or one prefix and the default
    namespace), the parser returns exactly that id, name and version, and
    unpack says whether the unpack text, lower-cased, is [true] ([false] when
    there is no unpack element). *)
Theorem legacy_round_trip (addonPath : string) (e r : option string)
    (idv namev versionv : string) (unpackv : option string) :
  prefix_ok e → prefix_ok r → e ≠ r → idv ≠ "" →
  parseInstallRdf_then addonPath (manifest_doc e r idv namev versionv unpackv) =
    Resolved {| id := JStr idv; name := JStr namev; version := JStr versionv;
                unpack := JBool (match unpackv with
                                 | Some u => String.eqb (toLowerCase u) "true"
                                 | None => false
                                 end) |}.
Proof.
  intros He Hr Hne Hid.
  destruct (manifest_namespaces addonPath e r idv namev versionv unpackv He Hr Hne)
    as [Hem Hrdf].
  destruct (manifest_lookup e idv namev versionv unpackv) as (Li & Ln & Lv & Lu).
  unfold parseInstallRdf_then. rewrite Hem, Hrdf. cbn [mbind outcome_bind].
  assert (get (manifest_doc e r idv namev versionv unpackv) (tag_prefix r +:+ "RDF")
          = Resolved (manifest_root e r idv namev versionv unpackv)) as ->.
  { simpl. by rewrite String.eqb_refl. }
  cbn [mbind outcome_bind].
  assert (get (manifest_root e r idv namev versionv unpackv)
            (tag_prefix r +:+ "Description")
          = Resolved (JArr [manifest_description e idv namev versionv unpackv])) as ->.
  { unfold manifest_root. cbn [get lookup_own assoc].
    by rewrite eqb_dollar, String.eqb_refl. }
  cbn [mbind outcome_bind].
  change (get (JArr [manifest_description e idv namev versionv unpackv]) "0")
    with (Resolved (manifest_description e idv namev versionv unpackv)).
  cbn [mbind outcome_bind].
  rewrite (getNodeText_text _ _ _ _ Li), (getNodeText_text _ _ _ _ Ln),
    (getNodeText_text _ _ _ _ Lv).
  cbn [mbind outcome_bind].
  destruct unpackv as [u|].
  - rewrite (getNodeText_text _ _ u [] Lu). cbn [mbind outcome_bind].
    destruct idv; [done|]. by destruct u.
  - rewrite (getNodeText_absent (manifest_description e idv namev versionv None)
               _ eq_refl Lu).
    cbn [mbind outcome_bind].
    by destruct idv.
Qed.

(** X16. An unpack element that xml2js stored as an object (an element with
    attributes) is kept as it is: the parser resolves with that object as
    [unpack], whatever its text, and the object is truthy, so that install
    takes it for a request to unpack. *)
Theorem legacy_unpack_element (addonPath : string) (doc : jsval) (em rdf : string)
    (rdfRoot descriptions description idv : jsval)
    (props : list (string * jsval)) (more : list jsval) :
  getNamespaceId addonPath doc EM_NS = Resolved em →
  getNamespaceId addonPath doc RDF_NS = Resolved rdf →
  get doc (rdf +:+ "RDF") = Resolved rdfRoot →
  get rdfRoot (rdf +:+ "Description") = Resolved descriptions →
  get descriptions "0" = Resolved description →
  getNodeText description (em +:+ "id") = Resolved idv → truthy idv = true →
  lookup_own description (em +:+ "unpack") = Some (JArr (JObj props :: more)) →
  ∃ details, parseInstallRdf_then addonPath doc = Resolved details ∧
    unpack details = JObj props ∧ truthy (unpack details) = true.
Proof.
  intros Hem Hrdf Hroot Hds Hd Hid Ht Hl.
  destruct (parseInstallRdf_then_located _ _ _ _ _ _ _ _ Hem Hrdf Hroot Hds Hd Hid Ht)
    as (namev & versionv & text & Htext & ->).
  destruct (getNodeText_element _ _ _ _ Hl) as [Hg Hu].
  rewrite Hg in Htext. injection Htext as <-.
  eexists. split; [done|]. simpl. by rewrite Hu.
Qed.

(** A key that [Object.keys] does not list is not a property. *)
Lemma assoc_not_key {A : Type} (k : string) (l : list (string * A)) :
  k ∉ keys_of l → assoc k l = None.
Proof.
  induction l as [|[k' v] r IH]; [done|]. simpl. intros Hn.
  apply not_elem_of_cons in Hn as [Hne Hn].
  destruct (String.eqb_spec k' k) as [->|_]; [done|].
  apply IH. intros Hin. apply Hn, list_elem_of_filter. by split.
Qed.

(** X17. In a document with one root key, three gaps make the callback of the
    legacy parser throw a TypeError instead of an AddonFormatError: a root
    value without the attribute map [$], a root key that is not [RDF] under
    the resolved prefix, and a root without a Description child. *)
Theorem legacy_type_errors (addonPath : string) (docProps : list (string * jsval))
    (root : string) (rootv : jsval) :
  keys_of docProps = [root] → assoc root docProps = Some rootv →
  (lookup_own rootv "$" = None →
     parseInstallRdf_then addonPath (JObj docProps) = Rejected TypeError) ∧
  (∀ em rdf,
     getNamespaceId addonPath (JObj docProps) EM_NS = Resolved em →
     getNamespaceId addonPath (JObj docProps) RDF_NS = Resolved rdf →
     root ≠ rdf +:+ "RDF" ∨ lookup_own rootv (rdf +:+ "Description") = None →
     parseInstallRdf_then addonPath (JObj docProps) = Rejected TypeError).
Proof.
  intros Hk Hr. split.
  - intros Ha. unfold parseInstallRdf_then.
    by rewrite (getNamespaceId_no_attributes _ _ _ _ EM_NS Hk Hr Ha).
  - intros em rdf Hem Hrdf Hgap.
    destruct (String.eqb_spec root (rdf +:+ "RDF")) as [->|Hne].
    + destruct Hgap as [?|Hl]; [done|].
      apply (parseInstallRdf_then_no_description _ _ _ _ rootv Hem Hrdf); [|done].
      simpl. by rewrite Hr.
    + assert (assoc (rdf +:+ "RDF") docProps = None) as Hnone.
      { apply assoc_not_key. rewrite Hk. intros Hin%list_elem_of_singleton. by apply Hne. }
      unfold parseInstallRdf_then. rewrite Hem, Hrdf. simpl. by rewrite Hnone.
Qed.

Section more.
Context {W : Type} `{!Collaborators W}.

Lemma await_then_value {A : Type} (p : Async W A) (v : jsval) (w : W) :
  (_ ← await p; resolve v) w = then_value v (p w).
Proof.
  unfold mbind, Promise_bind, then_, await, then_value.
  by destruct (p w) as [[e|a] w1].
Qed.

Lemma post_then {A B : Type} (P : B → Prop) (p : Promise W A) (f : A → Promise W B) :
  (∀ a, post_promise P (f a)) → post_promise P (p ≫= f).
Proof.
  intros Hf w. unfold mbind, Promise_bind, then_.
  destruct (p w) as [[a|e] w1]; [apply Hf|done].
Qed.

Lemma post_settle {A : Type} (P : A → Prop) (o : outcome A) :
  post P o → post_promise (W:=W) P (settle o).
Proof. intros Ho w. exact Ho. Qed.

Lemma post_parseInstallRdf addonPath rdf :
  post_promise (λ d, truthy (id d) = true) (parseInstallRdf addonPath rdf).
Proof.
  unfold parseInstallRdf. apply post_then. intros doc. apply post_settle.
  destruct (parseInstallRdf_then addonPath doc) as [d|e] eqn:Hd; [|done].
  by apply parseInstallRdf_then_resolved in Hd as [? _].
Qed.

Lemma post_parseJsonBuffer addonPath buf :
  post_promise (λ d, truthy (id d) = true) (parseJsonBuffer addonPath buf).
Proof.
  unfold parseJsonBuffer. destruct (JSON_parse _) as [err|json]; [done|].
  apply post_settle.
  destruct (parseManifestJson addonPath json) as [d|e] eqn:Hd; [|done].
  by apply parseManifestJson_resolved in Hd as [? _].
Qed.

Lemma post_getDetails addonPath :
  post_promise (λ d, truthy (id d) = true) (getDetails addonPath).
Proof.
  unfold getDetails. apply post_then. intros stats.
  destruct (isDirectory stats).
  - unfold parseDirectory. apply post_then. intros [].
    + apply post_then. intros buf. apply post_parseInstallRdf.
    + apply post_then. intros []; [|done].
      apply post_then. intros buf. apply post_parseJsonBuffer.
  - destruct (String.eqb _ _); [|done].
    unfold parseXpiFile. apply post_then. intros archive.
    destruct (archive_has archive "install.rdf").
    + apply post_then. intros buf. apply post_parseInstallRdf.
    + destruct (archive_has archive "manifest.json"); [|done].
      apply post_then. intros buf. apply post_parseJsonBuffer.
Qed.

(** X10. install resolves only to the id of the details that getDetails
    resolved to, and that id is a string that is not empty. *)
Theorem install_resolves_to_id (extension dir : string) (w w' : W) (v : jsval) :
  install extension dir w = (Resolved v, w') →
  ∃ details w1 s,
    getDetails extension w = (Resolved details, w1) ∧
    id details = JStr s ∧ s ≠ "" ∧ v = JStr s.
Proof.
  intros Hi. pose proof Hi as Hi'. unfold install in Hi'.
  apply then_inv in Hi' as [(e & _ & [=])|(details & w1 & Hg & Hr)].
  pose proof (post_getDetails extension w) as Ht. rewrite Hg in Ht. simpl in Ht.
  destruct (id details) as [| |b|x|s|items|props] eqn:Hid;
    try (rewrite settle_then in Hr; simpl in Hr; discriminate Hr).
  exists details, w1, s. split_and!; [done|done|by destruct s|].
  rewrite (install_resolved _ dir _ _ _ _ Hg Hid) in Hi.
  repeat case_match; rewrite await_then_value in Hi; unfold then_value in Hi;
    repeat case_match; by simplify_eq.
Qed.

(** X4. For a file (not a directory) whose path ends in [.xpi] and whose
    details have a falsy unpack, install settles as
    [io.copy(extension, path.join(dir, id) + '.xpi')] does: resolved to the
    id when the copy resolves, rejected with the error of the copy, as it is,
    when the copy rejects. *)
Theorem install_archive_packed (extension dir : string) (w w1 w2 : W)
    (stats : Stats) (details : AddonDetails) (i : string) :
  io_stat extension w = (inr stats, w1) → isDirectory stats = false →
  slice_last 4 extension = ".xpi" →
  parseXpiFile extension extension w1 = (Resolved details, w2) →
  truthy (unpack details) = false → id details = JStr i →
  install extension dir w =
    then_value (JStr i) (io_copy extension (path_join dir i +:+ ".xpi") w2).
Proof.
  intros Hs Hd Hx Hp Hu Hi.
  assert (getDetails extension w = (Resolved details, w2)) as Hg.
  { by rewrite (getDetails_stat_resolved _ _ _ _ Hs), Hd, Hx, String.eqb_refl. }
  rewrite (install_resolved _ dir _ _ _ _ Hg Hi), Hx, Hu, String.eqb_refl.
  cbn [negb]. apply await_then_value.
Qed.

(** X2. For a file whose path ends in [.xpi] and whose details have a
    truthy unpack, install settles as [zip.unzip(extension, path.join(dir, id))]
    does: resolved to the id, or rejected with the error of the unzip. *)
Theorem install_archive_unpacked (extension dir : string) (w w1 w2 : W)
    (stats : Stats) (details : AddonDetails) (i : string) :
  io_stat extension w = (inr stats, w1) → isDirectory stats = false →
  slice_last 4 extension = ".xpi" →
  parseXpiFile extension extension w1 = (Resolved details, w2) →
  truthy (unpack details) = true → id details = JStr i →
  install extension dir w =
    then_value (JStr i) (zip_unzip extension (path_join dir i) w2).
Proof.
  intros Hs Hd Hx Hp Hu Hi.
  assert (getDetails extension w = (Resolved details, w2)) as Hg.
  { by rewrite (getDetails_stat_resolved _ _ _ _ Hs), Hd, Hx, String.eqb_refl. }
  rewrite (install_resolved _ dir _ _ _ _ Hg Hi), Hx, Hu, String.eqb_refl.
  cbn [negb]. apply await_then_value.
Qed.

(** X3. For a directory whose path does not end in [.xpi], whatever its
    details say about unpack, install settles as
    [io.copyDir(extension, path.join(dir, id))] does: resolved to the id, or
    rejected with the error of the copy. *)
Theorem install_directory_tree (extension dir : string) (w w1 w2 : W)
    (stats : Stats) (details : AddonDetails) (i : string) :
  io_stat extension w = (inr stats, w1) → isDirectory stats = true →
  slice_last 4 extension ≠ ".xpi" →
  parseDirectory extension extension w1 = (Resolved details, w2) →
  id details = JStr i →
  install extension dir w =
    then_value (JStr i) (io_copyDir extension (path_join dir i) w2).
Proof.
  intros Hs Hd Hx Hp Hi.
  assert (getDetails extension w = (Resolved details, w2)) as Hg.
  { by rewrite (getDetails_stat_resolved _ _ _ _ Hs), Hd. }
  rewrite (install_resolved _ dir _ _ _ _ Hg Hi).
  destruct (String.eqb_spec (slice_last 4 extension) ".xpi"); [done|].
  by rewrite await_then_value.
Qed.

(** X1. In an archive, install.rdf is read and handed to the legacy parser
    whenever the archive has it, also when it has manifest.json as well; with
    manifest.json only, that entry is read, parsed as JSON and handed to the
    modern parser; with neither, the promise is rejected with an
    AddonFormatError whose message ends in the path of the archive. *)
Theorem parseXpiFile_dispatch (addonPath filePath : string) (w w1 : W)
    (archive : Archive) :
  zip_load filePath w = (inr archive, w1) →
  (∀ w2 buf,
     archive_has archive "install.rdf" = true →
     archive_getFile archive "install.rdf" w1 = (inr buf, w2) →
     parseXpiFile addonPath filePath w =
       parseInstallRdf addonPath (Buffer_toString buf) w2) ∧
  (∀ w2 buf json,
     archive_has archive "install.rdf" = false →
     archive_has archive "manifest.json" = true →
     archive_getFile archive "manifest.json" w1 = (inr buf, w2) →
     JSON_parse (Buffer_toString buf) = inr json →
     parseXpiFile addonPath filePath w = (parseManifestJson addonPath json, w2)) ∧
  (archive_has archive "install.rdf" = false →
   archive_has archive "manifest.json" = false →
   parseXpiFile addonPath filePath w =
     (Rejected (AddonFormatError
                  ("Couldn't find install.rdf or manifest.json in " +:+ filePath)),
      w1)).
Proof.
  intros Hl. unfold parseXpiFile. await_resolves Hl. split_and!.
  - intros w2 buf -> Hf. by await_resolves Hf.
  - intros w2 buf json -> -> Hf Hj. await_resolves Hf.
    unfold parseJsonBuffer. by rewrite Hj.
  - by intros -> ->.
Qed.

(** X11. A manifest.json that JSON.parse refuses, in a directory or in an
    archive, rejects install with the SyntaxError of JSON.parse as it is, not
    with an AddonFormatError. *)
Theorem install_json_syntax_error (extension dir : string) (w w1 : W)
    (stats : Stats) (err : string) :
  io_stat extension w = (inr stats, w1) →
  (∀ w2 w3 w4 buf,
     isDirectory stats = true →
     io_exists (path_join extension "install.rdf") w1 = (inr false, w2) →
     io_exists (path_join extension "manifest.json") w2 = (inr true, w3) →
     io_read (path_join extension "manifest.json") w3 = (inr buf, w4) →
     JSON_parse (Buffer_toString buf) = inl err →
     install extension dir w = (Rejected (SyntaxError err), w4)) ∧
  (∀ w2 w3 archive buf,
     isDirectory stats = false → slice_last 4 extension = ".xpi" →
     zip_load extension w1 = (inr archive, w2) →
     archive_has archive "install.rdf" = false →
     archive_has archive "manifest.json" = true →
     archive_getFile archive "manifest.json" w2 = (inr buf, w3) →
     JSON_parse (Buffer_toString buf) = inl err →
     install extension dir w = (Rejected (SyntaxError err), w3)).
Proof.
  intros Hs. split.
  - intros w2 w3 w4 buf Hd He1 He2 Hr Hj. unfold install. apply then_rejected.
    rewrite (getDetails_stat_resolved _ _ _ _ Hs), Hd. unfold parseDirectory.
    await_resolves He1. await_resolves He2. await_resolves Hr.
    unfold parseJsonBuffer. by rewrite Hj.
  - intros w2 w3 archive buf Hd Hx Hl Hh1 Hh2 Hf Hj. unfold install.
    apply then_rejected.
    rewrite (getDetails_stat_resolved _ _ _ _ Hs), Hd, Hx, String.eqb_refl.
    unfold parseXpiFile.
    await_resolves Hl. rewrite Hh1, Hh2. await_resolves Hf.
    unfold parseJsonBuffer. by rewrite Hj.
Qed.

(** X12. When a collaborator fails while the manifest is looked for (the
    archive cannot be opened, an entry or a file cannot be read, the
    existence check fails), install rejects with that error as it is, and
    nothing is run after the failed call. *)
Theorem install_manifest_io_failure (extension dir : string) (w w1 : W)
    (stats : Stats) (e : string) :
  io_stat extension w = (inr stats, w1) →
  (∀ w2, isDirectory stats = false → slice_last 4 extension = ".xpi" →
     zip_load extension w1 = (inl e, w2) →
     install extension dir w = (Rejected (IoError e), w2)) ∧
  (∀ w2 w3 archive,
     isDirectory stats = false → slice_last 4 extension = ".xpi" →
     zip_load extension w1 = (inr archive, w2) →
     archive_has archive "install.rdf" = true →
     archive_getFile archive "install.rdf" w2 = (inl e, w3) →
     install extension dir w = (Rejected (IoError e), w3)) ∧
  (∀ w2 w3 archive,
     isDirectory stats = false → slice_last 4 extension = ".xpi" →
     zip_load extension w1 = (inr archive, w2) →
     archive_has archive "install.rdf" = false →
     archive_has archive "manifest.json" = true →
     archive_getFile archive "manifest.json" w2 = (inl e, w3) →
     install extension dir w = (Rejected (IoError e), w3)) ∧
  (∀ w2, isDirectory stats = true →
     io_exists (path_join extension "install.rdf") w1 = (inl e, w2) →
     install extension dir w = (Rejected (IoError e), w2)) ∧
  (∀ w2 w3, isDirectory stats = true →
     io_exists (path_join extension "install.rdf") w1 = (inr true, w2) →
     io_read (path_join extension "install.rdf") w2 = (inl e, w3) →
     install extension dir w = (Rejected (IoError e), w3)) ∧
  (∀ w2 w3 w4, isDirectory stats = true →
     io_exists (path_join extension "install.rdf") w1 = (inr false, w2) →
     io_exists (path_join extension "manifest.json") w2 = (inr true, w3) →
     io_read (path_join extension "manifest.json") w3 = (inl e, w4) →
     install extension dir w = (Rejected (IoError e), w4)).
Proof.
  intros Hs. split_and!.
  - intros w2 Hd Hx Hl. unfold install. apply then_rejected.
    rewrite (getDetails_stat_resolved _ _ _ _ Hs), Hd, Hx, String.eqb_refl.
    unfold parseXpiFile.
    by await_rejects Hl.
  - intros w2 w3 archive Hd Hx Hl Hh Hf. unfold install. apply then_rejected.
    rewrite (getDetails_stat_resolved _ _ _ _ Hs), Hd, Hx, String.eqb_refl.
    unfold parseXpiFile. await_resolves Hl. rewrite Hh. by await_rejects Hf.
  - intros w2 w3 archive Hd Hx Hl Hh1 Hh2 Hf. unfold install. apply then_rejected.
    rewrite (getDetails_stat_resolved _ _ _ _ Hs), Hd, Hx, String.eqb_refl.
    unfold parseXpiFile. await_resolves Hl. rewrite Hh1, Hh2. by await_rejects Hf.
  - intros w2 Hd He. unfold install. apply then_rejected.
    rewrite (getDetails_stat_resolved _ _ _ _ Hs), Hd. unfold parseDirectory.
    by await_rejects He.
  - intros w2 w3 Hd He Hr. unfold install. apply then_rejected.
    rewrite (getDetails_stat_resolved _ _ _ _ Hs), Hd. unfold parseDirectory.
    await_resolves He. by await_rejects Hr.
  - intros w2 w3 w4 Hd He1 He2 Hr. unfold install. apply then_rejected.
    rewrite (getDetails_stat_resolved _ _ _ _ Hs), Hd. unfold parseDirectory.
    await_resolves He1. await_resolves He2. by await_rejects Hr.
Qed.

End more.

Section model_more.
Import SpecIO.
Variable resolve_path : string → list string.
Variable zip_decode : string → option (list (string * string)).
Variable join : string → string → string.
Variable parse_xml : string → string + jsval.
Variable parse_json : string → string + jsval.
Variable utf8 : string → string.

Local Abbreviation model :=
  (collaborators resolve_path zip_decode join parse_xml parse_json utf8).

(** X5. On the model of the filesystem: when getDetails rejects, install
    rejects with the same error and the filesystem is as it was. *)
Theorem install_malformed_leaves_disk (extension dir : string)
    (fs : gmap (list string) entry) (e : js_error) :
  (getDetails (Collaborators0:=model) extension fs).1 = Rejected e →
  install (Collaborators0:=model) extension dir fs = (Rejected e, fs).
Proof.
  intros Hd. unfold install. apply then_rejected.
  pose proof (reads_getDetails resolve_path zip_decode join parse_xml parse_json utf8
                extension fs) as Hr.
  destruct (getDetails extension fs) as [r fs1]. simpl in *. by subst.
Qed.

End model_more.

Lemma install_malformed_leaves_disk_witness :
  install (Collaborators0:=Cases.io) "/ext/badjson" "/profile" Cases.disk =
    (Rejected (SyntaxError "Unexpected token"), Cases.disk) ∧
  install (Collaborators0:=Cases.io) "/ext/empty.xpi" "/profile" Cases.disk =
    (Rejected (AddonFormatError
                 "Couldn't find install.rdf or manifest.json in /ext/empty.xpi"),
     Cases.disk).
Proof.
  split.
  - apply (install_malformed_leaves_disk Sample.resolve_path Cases.zip_decode
             Sample.join Sample.parse_xml Sample.parse_json (λ s, s)).
    reflexivity.
  - apply (install_malformed_leaves_disk Sample.resolve_path Cases.zip_decode
             Sample.join Sample.parse_xml Sample.parse_json (λ s, s)).
    reflexivity.
Defined.

Lemma parseXpiFile_dispatch_witness :
  parseXpiFile (Collaborators0:=Cases.io) "/ext/both.xpi" "/ext/both.xpi" Cases.disk =
    (Resolved Cases.legacy_details, Cases.disk) ∧
  parseXpiFile (Collaborators0:=Cases.io) "/ext/modern.xpi" "/ext/modern.xpi" Cases.disk =
    (Resolved Cases.modern_details, Cases.disk) ∧
  parseXpiFile (Collaborators0:=Cases.io) "/ext/empty.xpi" "/ext/empty.xpi" Cases.disk =
    (Rejected (AddonFormatError
                 "Couldn't find install.rdf or manifest.json in /ext/empty.xpi"),
     Cases.disk).
Proof.
  split_and!.
  - rewrite (proj1 (parseXpiFile_dispatch (Collaborators0:=Cases.io)
               "/ext/both.xpi" "/ext/both.xpi" Cases.disk Cases.disk
               [("manifest.json", Sample.json_text); ("install.rdf", Sample.rdf_text)]
               eq_refl) Cases.disk Sample.rdf_text eq_refl eq_refl).
    reflexivity.
  - rewrite (proj1 (proj2 (parseXpiFile_dispatch (Collaborators0:=Cases.io)
               "/ext/modern.xpi" "/ext/modern.xpi" Cases.disk Cases.disk
               [("manifest.json", Sample.json_text)] eq_refl))
               Cases.disk Sample.json_text Sample.json_doc
               eq_refl eq_refl eq_refl eq_refl).
    reflexivity.
  - apply (proj2 (proj2 (parseXpiFile_dispatch (Collaborators0:=Cases.io)
               "/ext/empty.xpi" "/ext/empty.xpi" Cases.disk Cases.disk [] eq_refl)));
      reflexivity.
Defined.

Lemma install_archive_unpacked_witness :
  (install (Collaborators0:=Cases.io) "/ext/legacy.xpi" "/profile" Cases.disk).1 =
    Resolved (JStr "legacy@example.com") ∧
  (install (Collaborators0:=Cases.io) "/ext/legacy.xpi" "/profile" Cases.disk).2
    !! ["profile"; "legacy@example.com"; "install.rdf"] =
    Some (SpecIO.File Sample.rdf_text).
Proof.
  rewrite (install_archive_unpacked (Collaborators0:=Cases.io)
             "/ext/legacy.xpi" "/profile" Cases.disk Cases.disk Cases.disk
             {| isDirectory := false |} Cases.legacy_details "legacy@example.com"
             eq_refl eq_refl eq_refl eq_refl eq_refl eq_refl).
  split; reflexivity.
Defined.

Lemma install_archive_packed_witness :
  install (Collaborators0:=Cases.io) "/ext/modern.xpi" "/profile" Cases.disk =
    (Rejected (IoError "EISDIR: /profile/modern@example.com.xpi"), Cases.disk).
Proof.
  rewrite (install_archive_packed (Collaborators0:=Cases.io)
             "/ext/modern.xpi" "/profile" Cases.disk Cases.disk Cases.disk
             {| isDirectory := false |} Cases.modern_details "modern@example.com"
             eq_refl eq_refl eq_refl eq_refl eq_refl eq_refl).
  reflexivity.
Defined.

Lemma install_directory_tree_witness :
  (install (Collaborators0:=Cases.io) "/ext/legacydir" "/profile" Cases.disk).1 =
    Resolved (JStr "legacy@example.com") ∧
  (install (Collaborators0:=Cases.io) "/ext/legacydir" "/profile" Cases.disk).2
    !! ["profile"; "legacy@example.com"; "chrome"; "a.js"] = Some (SpecIO.File "js").
Proof.
  assert (slice_last 4 "/ext/legacydir" ≠ ".xpi") as Hx.
  { intros Hx. discriminate Hx. }
  rewrite (install_directory_tree (Collaborators0:=Cases.io)
             "/ext/legacydir" "/profile" Cases.disk Cases.disk Cases.disk
             {| isDirectory := true |} Cases.legacy_details "legacy@example.com"
             eq_refl eq_refl Hx eq_refl eq_refl).
  split; reflexivity.
Defined.

Lemma install_resolves_to_id_witness :
  ∃ details w1 s,
    getDetails (Collaborators0:=Cases.io) "/ext/legacy.xpi" Cases.disk =
      (Resolved details, w1) ∧
    id details = JStr s ∧ s ≠ "" ∧ JStr "legacy@example.com" = JStr s.
Proof.
  apply (install_resolves_to_id (Collaborators0:=Cases.io) "/ext/legacy.xpi" "/profile"
           Cases.disk
           (install (Collaborators0:=Cases.io) "/ext/legacy.xpi" "/profile" Cases.disk).2).
  reflexivity.
Defined.

Lemma install_json_syntax_error_witness :
  install (Collaborators0:=Cases.io) "/ext/badjson" "/profile" Cases.disk =
    (Rejected (SyntaxError "Unexpected token"), Cases.disk) ∧
  install (Collaborators0:=Cases.io) "/ext/badjson.xpi" "/profile" Cases.disk =
    (Rejected (SyntaxError "Unexpected token"), Cases.disk).
Proof.
  split.
  - apply (proj1 (install_json_syntax_error (Collaborators0:=Cases.io)
             "/ext/badjson" "/profile" Cases.disk Cases.disk
             {| isDirectory := true |} "Unexpected token" eq_refl)
             Cases.disk Cases.disk Cases.disk "{"); reflexivity.
  - apply (proj2 (install_json_syntax_error (Collaborators0:=Cases.io)
             "/ext/badjson.xpi" "/profile" Cases.disk Cases.disk
             {| isDirectory := false |} "Unexpected token" eq_refl)
             Cases.disk Cases.disk [("manifest.json", "{")] "{"); reflexivity.
Defined.

Lemma install_manifest_io_failure_witness :
  install (Collaborators0:=Cases.io) "/ext/garbage.xpi" "/profile" Cases.disk =
    (Rejected (IoError "not an archive: /ext/garbage.xpi"), Cases.disk) ∧
  install (Collaborators0:=Cases.io) "/ext/rdfdir" "/profile" Cases.disk =
    (Rejected (IoError "EISDIR: /ext/rdfdir/install.rdf"), Cases.disk).
Proof.
  split.
  - apply (proj1 (install_manifest_io_failure (Collaborators0:=Cases.io)
             "/ext/garbage.xpi" "/profile" Cases.disk Cases.disk
             {| isDirectory := false |} "not an archive: /ext/garbage.xpi" eq_refl)
             Cases.disk); reflexivity.
  - apply (proj1 (proj2 (proj2 (proj2 (proj2 (install_manifest_io_failure
             (Collaborators0:=Cases.io)
             "/ext/rdfdir" "/profile" Cases.disk Cases.disk
             {| isDirectory := true |} "EISDIR: /ext/rdfdir/install.rdf" eq_refl)))))
             Cases.disk Cases.disk); reflexivity.
Defined.

(** ** The further theorems on sample manifests *)

Lemma getNodeText_result_witness :
  getNodeText JUndefined "em:id" = Rejected TypeError ∧
  (∃ r, getNodeText (Sample.rdf_description []) "em:unpack" = Resolved r ∧ text_like r).
Proof.
  split.
  - apply (proj1 (getNodeText_result JUndefined "em:id")). reflexivity.
  - apply (proj1 (proj2 (getNodeText_result (Sample.rdf_description []) "em:unpack"))).
    reflexivity.
Defined.

Lemma getNamespaceId_shape_witness :
  "em:" = "" ∨ ∃ x, "em:" = x +:+ ":" ∧ contains_char ":" x = false.
Proof.
  apply (getNamespaceId_shape "/ext/both" Sample.rdf_doc EM_NS "em:"). reflexivity.
Defined.

(** A manifest whose id element is empty, and the sample manifest with
    [<em:id xml:lang='en'/>] for its id element. *)
Lemma legacy_missing_id_witness :
  parseInstallRdf_then "/ext/both"
    (manifest_doc (Some "em") None "" "Legacy" "1.0" None) =
    Rejected (AddonFormatError "Could not find add-on ID for /ext/both") ∧
  ∃ details,
    parseInstallRdf_then "/ext/both" Cases.rdf_doc_attributed_id = Resolved details ∧
    id details = JObj [("$", JObj [("xml:lang", JStr "en")])].
Proof.
  split.
  - apply (proj1 (proj2
             (legacy_missing_id "/ext/both"
                (manifest_doc (Some "em") None "" "Legacy" "1.0" None) "em:" ""
                (manifest_root (Some "em") None "" "Legacy" "1.0" None)
                (JArr [manifest_description (Some "em") "" "Legacy" "1.0" None])
                (manifest_description (Some "em") "" "Legacy" "1.0" None)
                eq_refl eq_refl eq_refl eq_refl eq_refl eq_refl))).
    right. exists []. reflexivity.
  - apply (proj2 (proj2
             (legacy_missing_id "/ext/both" Cases.rdf_doc_attributed_id "em:" ""
                (JObj [("$", JObj Sample.rdf_attrs);
                       ("Description",
                        JArr [JObj [("em:id", JArr [Cases.attributed_element None]);
                                    ("em:name", JArr [JStr "Legacy"]);
                                    ("em:version", JArr [JStr "1.0"])]])])
                (JArr [JObj [("em:id", JArr [Cases.attributed_element None]);
                             ("em:name", JArr [JStr "Legacy"]);
                             ("em:version", JArr [JStr "1.0"])]])
                (JObj [("em:id", JArr [Cases.attributed_element None]);
                       ("em:name", JArr [JStr "Legacy"]);
                       ("em:version", JArr [JStr "1.0"])])
                eq_refl eq_refl eq_refl eq_refl eq_refl eq_refl))
             [("$", JObj [("xml:lang", JStr "en")])] []).
    reflexivity.
Defined.

(** The sample manifest is the document of its fields, and parses back to
    them; so does a manifest that puts the RDF namespace under a prefix. *)
Lemma legacy_round_trip_witness :
  manifest_doc (Some "em") None "legacy@example.com" "Legacy" "1.0" (Some "TRUE") =
    Sample.rdf_doc ∧
  parseInstallRdf_then "/ext/both"
    (manifest_doc (Some "em") None "legacy@example.com" "Legacy" "1.0" (Some "TRUE")) =
    Resolved Cases.legacy_details ∧
  parseInstallRdf_then "/ext/both"
    (manifest_doc None (Some "RDF") "a@b" "" "" (Some "false")) =
    Resolved {| id := JStr "a@b"; name := JStr ""; version := JStr "";
                unpack := JBool false |}.
Proof.
  split_and!.
  - reflexivity.
  - apply (legacy_round_trip "/ext/both" (Some "em") None
             "legacy@example.com" "Legacy" "1.0" (Some "TRUE")).
    + reflexivity.
    + exact I.
    + intros He. discriminate He.
    + intros Hi. discriminate Hi.
  - apply (legacy_round_trip "/ext/both" None (Some "RDF") "a@b" "" "" (Some "false")).
    + exact I.
    + reflexivity.
    + intros He. discriminate He.
    + intros Hi. discriminate Hi.
Defined.

Lemma legacy_details_invariant_witness :
  truthy (id Cases.legacy_details) = true ∧
  text_like (name Cases.legacy_details) ∧ text_like (version Cases.legacy_details) ∧
  (∀ s, unpack Cases.legacy_details ≠ JStr s) ∧
  ((∃ b, unpack Cases.legacy_details = JBool b) ∨
   truthy (unpack Cases.legacy_details) = true).
Proof.
  apply (legacy_details_invariant "/ext/both" Sample.rdf_doc Cases.legacy_details).
  reflexivity.
Defined.

Lemma modern_details_invariant_witness :
  truthy (id Cases.modern_details) = true ∧
  lookup_path Sample.json_doc ["applications"; "gecko"; "id"] =
    Some (id Cases.modern_details) ∧
  name Cases.modern_details = default JUndefined (lookup_own Sample.json_doc "name") ∧
  version Cases.modern_details =
    default JUndefined (lookup_own Sample.json_doc "version") ∧
  unpack Cases.modern_details = JBool false.
Proof.
  apply (modern_details_invariant "/ext/webext" Sample.json_doc Cases.modern_details).
  reflexivity.
Defined.

(** A manifest.json that holds an array, and one that holds a string. *)
Lemma modern_not_an_object_witness :
  parseManifestJson "/ext/webext" (JArr [JStr "modern@example.com"]) =
    Rejected (AddonFormatError "Could not find add-on ID for /ext/webext") ∧
  parseManifestJson "/ext/webext" (JStr "modern@example.com") =
    Rejected (AddonFormatError "Could not find add-on ID for /ext/webext").
Proof.
  split.
  - apply (modern_not_an_object "/ext/webext" (JArr [JStr "modern@example.com"])).
    intros props Hp. discriminate Hp.
  - apply (modern_not_an_object "/ext/webext" (JStr "modern@example.com")).
    intros props Hp. discriminate Hp.
Defined.

(** An unpack element with an attribute and the text [false]. *)
Lemma legacy_unpack_element_witness :
  ∃ details,
    parseInstallRdf_then "/ext/legacy.xpi"
      (Sample.rdf_doc_of
         [JObj [("_", JStr "false"); ("$", JObj [("keep", JStr "yes")])]]) =
      Resolved details ∧
    unpack details = JObj [("_", JStr "false"); ("$", JObj [("keep", JStr "yes")])] ∧
    truthy (unpack details) = true.
Proof.
  by apply (legacy_unpack_element "/ext/legacy.xpi" _ "em:" ""
              (Sample.rdf_root
                 [JObj [("_", JStr "false"); ("$", JObj [("keep", JStr "yes")])]])
              (JArr [Sample.rdf_description
                 [JObj [("_", JStr "false"); ("$", JObj [("keep", JStr "yes")])]]])
              (Sample.rdf_description
                 [JObj [("_", JStr "false"); ("$", JObj [("keep", JStr "yes")])]])
              (JStr "legacy@example.com") _ []).
Defined.

(** A root without attributes, a root under another name, and a root without a
    description. *)
Lemma legacy_type_errors_witness :
  parseInstallRdf_then "/ext/legacy.xpi" (JObj [("RDF", JObj [])]) = Rejected TypeError ∧
  parseInstallRdf_then "/ext/legacy.xpi"
    (JObj [("Manifest", Sample.rdf_root [])]) = Rejected TypeError ∧
  parseInstallRdf_then "/ext/legacy.xpi" Sample.rdf_no_description = Rejected TypeError.
Proof.
  split_and!.
  - by apply (proj1 (legacy_type_errors "/ext/legacy.xpi" [("RDF", JObj [])] "RDF"
                       (JObj []) eq_refl eq_refl)).
  - apply (proj2 (legacy_type_errors "/ext/legacy.xpi"
                    [("Manifest", Sample.rdf_root [])] "Manifest"
                    (Sample.rdf_root []) eq_refl eq_refl) "em:" ""); [done|done|].
    by left.
  - apply (proj2 (legacy_type_errors "/ext/legacy.xpi"
                    [("RDF", JObj [("$", JObj Sample.rdf_attrs)])] "RDF"
                    (JObj [("$", JObj Sample.rdf_attrs)]) eq_refl eq_refl) "em:" "");
      [done|done|]. by right.
Defined.
